(** * Zakat monitor: the nisab-tracking ledger and its eligibility engine

    A shallow embedding of the ledger logic of [zakat_monitor.py]
    ([ZakatMonitor.check_hijri_year_threshold], [record_zakat_payment],
    [_load_balance_history], [_save_balance_history],
    [_process_all_sources]), of [app/storage/history.py]
    ([HistoryStorage.save_history], [HistoryStorage.load_history]) and of the
    override gate of [app/adapter.py] ([ZakatMonitorAdapter.run_analysis]).

    Python values are rendered as follows.
    - [float] is IEEE binary64, Rocq's primitive [float].
    - [str] is [string], the text in UTF-8; comparison of two [str] is
      the lexicographic comparison of their code points, which on UTF-8 is
      the one of their bytes, [String.ltb].
    - [int] is [Z].
    - A ledger entry is a [dict]; the program builds exactly two shapes of
      them, which are the two constructors of [entry].
    - The instant [datetime.now()] and the outcome of library calls that
      depend on the outside world are explicit arguments. *)

From Stdlib Require Import ZArith Floats Ascii.
From Stdlib Require OrderedTypeEx.
From stdpp Require Import base option list strings sorting gmap.

Local Open Scope Z_scope.

(** ** Constants (zakat_monitor.py, lines 27-35) *)

(** [0.025] denotes the binary64 value nearest to it, in Python as here. *)
#[warnings="-inexact-float"] Definition ZAKAT_RATE : float := 0.025%float.
Definition MAX_HISTORY_MONTHS : nat := 24.
Definition HIJRI_YEAR_MONTHS : Z := 12.

(** ** Ledger entries *)

(** The [current_entry] dict of [check_hijri_year_threshold].  The three
    fields read from [current_date] with [dict.get] are [None] when the key is
    missing. *)
Record observation := {
  balance : float;
  nisab_threshold : float;
  above_nisab : bool;
  hijri_year : option Z;
  hijri_month : option Z;
  gregorian_date : option string;
  timestamp : string
}.

(** A ledger entry: an observation, or the [payment_entry] dict of
    [record_zakat_payment], whose ['type'] is ['zakat_paid'] and which carries
    a timestamp and a Gregorian date. *)
Inductive entry :=
| Observation (o : observation)
| ZakatPaid (ts : string) (date : string).

(** [entry['timestamp']] *)
Definition entry_timestamp (e : entry) : string :=
  match e with
  | Observation o => timestamp o
  | ZakatPaid ts _ => ts
  end.

(** [entry.get('gregorian_date', '')]: both shapes carry the key; the value
    is [None] for an observation built from a [current_date] without it. *)
Definition entry_gregorian_date (e : entry) : option string :=
  match e with
  | Observation o => gregorian_date o
  | ZakatPaid _ d => Some d
  end.

(** [entry.get('type') == 'zakat_paid'] *)
Definition is_zakat_paid (e : entry) : bool :=
  match e with
  | Observation _ => false
  | ZakatPaid _ _ => true
  end.

(** The entry counts towards the streak: it is an observation whose
    [above_nisab] flag is set. *)
Definition counts_above (e : entry) : bool :=
  match e with
  | Observation o => above_nisab o
  | ZakatPaid _ _ => false
  end.

(** ** Python list operations *)

(** [l[-n:]] for [n > 0]: the last [n] elements, the whole list when it has
    at most [n]. *)
Definition py_last_n {A} (n : nat) (l : list A) : list A :=
  drop (length l - n) l.

(** [sorted(l, key=lambda x: x['timestamp'])]: Python's sort is stable, and
    a stable sort has one possible result, the one of this insertion sort.
    [insert_by_timestamp x l] puts [x] in front of the first element of [l]
    whose key is not smaller than the key of [x]; as [x] comes before [l] in
    the input, entries with equal keys keep their input order. *)
Fixpoint insert_by_timestamp (x : entry) (l : list entry) : list entry :=
  match l with
  | [] => [x]
  | y :: l' =>
      if String.ltb (entry_timestamp y) (entry_timestamp x)
      then y :: insert_by_timestamp x l'
      else x :: y :: l'
  end.

Definition sorted_by_timestamp (l : list entry) : list entry :=
  foldr insert_by_timestamp [] l.

(** [a] may stand before [b] in a list sorted by ascending timestamp: the
    timestamp of [b] is not smaller than the one of [a]. *)
Definition timestamp_le (a b : entry) : Prop :=
  String.ltb (entry_timestamp b) (entry_timestamp a) = false.

(** ** The year progress override (app/api/schemas.py, YearProgressOverride) *)

Record year_progress_override_cfg := {
  enabled : bool;
  months_above_nisab : Z;
  as_of_hijri_date : string
}.

(** ** The eligibility engine *)

(** [AnalysisResult] *)
Record AnalysisResult := {
  r_bank_balance : float;
  r_additional_assets : float;
  r_total_assets : float;
  r_nisab_threshold : float;
  r_above_nisab : bool;
  r_consecutive_months_above_nisab : Z;
  r_hijri_year_complete : bool;
  r_zakat_due : bool;
  r_zakat_amount : float
}.

(** The [current_date] dict handed to the engine. *)
Record current_date_t := {
  cd_hijri_year : option Z;
  cd_hijri_month : option Z;
  cd_gregorian_date : option string
}.

(** [total_assets >= nisab_threshold] on floats. *)
Definition float_ge (a b : float) : bool := PrimFloat.leb b a.

(** The deduplication step (lines 1118-1126): the list comprehension keeps the
    entries whose date differs from the current one, then the current entry
    is appended. *)
Definition dedup_append (history : list entry) (current_entry : observation)
  : list entry :=
  filter (λ e, entry_gregorian_date e ≠ gregorian_date current_entry) history
    ++ [Observation current_entry].

(** The [for entry in reversed(sorted_history)] loop (lines 1130-1140), on the
    reversed list, with the counter as accumulator; [break] returns it. *)
Fixpoint streak_loop (consecutive_months : Z) (reversed_history : list entry)
  : Z :=
  match reversed_history with
  | [] => consecutive_months
  | e :: rest =>
      if is_zakat_paid e then consecutive_months
      else if counts_above e then streak_loop (consecutive_months + 1) rest
      else consecutive_months
  end.

Definition replay_streak (history : list entry) : Z :=
  streak_loop 0 (reverse (sorted_by_timestamp history)).

(** Lines 1147-1155: [override] is the monitor's [year_progress_override]
    attribute, [None] or a non-empty dict (truthy). *)
Definition apply_override (override : option year_progress_override_cfg)
    (consecutive_months : Z) : Z :=
  match override with
  | Some ov =>
      if 0 <? consecutive_months then
        let override_months := months_above_nisab ov in
        let effective := override_months + Z.max 0 (consecutive_months - 1) in
        if consecutive_months <? effective then effective
        else consecutive_months
      else consecutive_months
  | None => consecutive_months
  end.

(** The part of a [ZakatMonitor] object the engine reads and writes. *)
Record ZakatMonitor := {
  balance_history : list entry;
  year_progress_override : option year_progress_override_cfg;
  additional_assets : float
}.

Definition set_balance_history (self : ZakatMonitor) (h : list entry)
  : ZakatMonitor :=
  {| balance_history := h;
     year_progress_override := year_progress_override self;
     additional_assets := additional_assets self |}.

Definition make_current_entry (total_assets nisab : float)
    (current_date : current_date_t) (now : string) : observation :=
  {| balance := total_assets;
     nisab_threshold := nisab;
     above_nisab := float_ge total_assets nisab;
     hijri_year := cd_hijri_year current_date;
     hijri_month := cd_hijri_month current_date;
     gregorian_date := cd_gregorian_date current_date;
     timestamp := now |}.

(** The ledger after deduplication, append and eviction (lines 1118-1127). *)
Definition updated_history (history : list entry) (current_entry : observation)
  : list entry :=
  py_last_n MAX_HISTORY_MONTHS (dedup_append history current_entry).

(** [check_hijri_year_threshold]: [now] is [datetime.now().isoformat()].
    Returns the monitor with its new [balance_history] and the verdict. The
    integer [0] of [zakat_amount] is the float zero. *)
Definition check_hijri_year_threshold (self : ZakatMonitor)
    (total_assets nisab : float) (current_date : current_date_t)
    (bank_balance : float) (now : string) : ZakatMonitor * AnalysisResult :=
  let current_entry := make_current_entry total_assets nisab current_date now in
  let history := updated_history (balance_history self) current_entry in
  let consecutive_months :=
    apply_override (year_progress_override self) (replay_streak history) in
  let hijri_year_complete := HIJRI_YEAR_MONTHS <=? consecutive_months in
  let zakat_amount :=
    if hijri_year_complete then PrimFloat.mul total_assets ZAKAT_RATE
    else 0%float in
  (set_balance_history self history,
   {| r_bank_balance := bank_balance;
      r_additional_assets := additional_assets self;
      r_total_assets := total_assets;
      r_nisab_threshold := nisab;
      r_above_nisab := float_ge total_assets nisab;
      r_consecutive_months_above_nisab := consecutive_months;
      r_hijri_year_complete := hijri_year_complete;
      r_zakat_due := hijri_year_complete;
      r_zakat_amount := zakat_amount |}).

(** ** Exceptions and library interfaces *)

(** The exceptions that leave [HistoryStorage.load_history]. *)
Inductive exn :=
| ValueError (msg : string)
| UnicodeDecodeError.

Inductive result (A : Type) :=
| Ok (a : A)
| Raise (e : exn).
Arguments Ok {A} a.
Arguments Raise {A} e.

(** What [json.loads] makes of a text: a list of ledger entries, a JSON
    document that is not a list, or a [JSONDecodeError]. *)
Inductive json_result :=
| JsonList (h : list entry)
| JsonNotList
| JSONDecodeError.

(** The library calls of the storage code. The program never looks inside a
    JSON text, an encoded plaintext or a Fernet token: it hands them from one
    call to the next and to the file, so their representations are left
    open. [fernet_encrypt] draws a time stamp and an initialisation vector
    from the system, its [entropy] argument; [fernet_decrypt] returns [None]
    for [InvalidToken]. [strptime_dmy s] is
    [datetime.strptime(s, '%d.%m.%Y')], [None] for [ValueError]. *)
Class Libraries := {
  json_text : Type;
  plaintext : Type;
  token : Type;
  fernet_key : Type;
  entropy : Type;
  datetime : Type;
  json_dumps : list entry → json_text;
  json_loads : json_text → json_result;
  encode_utf8 : json_text → plaintext;
  decode_utf8 : plaintext → option json_text;
  fernet_encrypt : fernet_key → entropy → plaintext → token;
  fernet_decrypt : fernet_key → token → option plaintext;
  strptime_dmy : string → option datetime;
  datetime_gt : datetime → datetime → bool;
  isoformat : datetime → string
}.

(** The contracts of these libraries that the round trip relies on. *)
Class LibrariesSpec (L : Libraries) : Prop := {
  json_loads_dumps : ∀ h, json_loads (json_dumps h) = JsonList h;
  decode_encode_utf8 : ∀ s, decode_utf8 (encode_utf8 s) = Some s;
  fernet_decrypt_encrypt :
    ∀ k r m, fernet_decrypt k (fernet_encrypt k r m) = Some m
}.

(** [datetime.now()]: its [isoformat()] and its [strftime('%d.%m.%Y')]. *)
Record instant := {
  now_isoformat : string;
  now_strftime_dmy : string
}.

(** What [record_zakat_payment] reports on standard output. *)
Inductive payment_outcome :=
| PaymentRecorded (gregorian_date : string)
| InvalidDateFormat.

Section Storage.
Context {L : Libraries}.

(** *** app/storage/history.py: HistoryStorage *)

(** The file [history.enc]: its bytes and its permission bits. *)
Record history_file := {
  content : token;
  mode : N
}.

(** [save_history]: [history] is a list by its type, so the [isinstance]
    guard passes. The file is overwritten and its mode set to [0o600]. *)
Definition save_history (key : fernet_key) (r : entropy)
    (history : list entry) (fs : option history_file)
  : bool * option history_file :=
  let history_json := json_dumps history in
  let encrypted_data := fernet_encrypt key r (encode_utf8 history_json) in
  (true, Some {| content := encrypted_data; mode := 384 |}).

Definition decrypt_error_message : string :=
  "Failed to decrypt history: wrong encryption key or corrupted file".
Definition invalid_json_message : string :=
  "Corrupted history file: invalid JSON".
Definition expected_list_message : string :=
  "Corrupted history file: expected list".

(** [load_history]: [InvalidToken] and [JSONDecodeError] are turned into
    [ValueError]; the [ValueError] of the list check and a
    [UnicodeDecodeError] pass through the [try] unchanged. *)
Definition load_history (key : fernet_key) (fs : option history_file)
  : result (list entry) :=
  match fs with
  | None => Ok []
  | Some f =>
      match fernet_decrypt key (content f) with
      | None => Raise (ValueError decrypt_error_message)
      | Some decrypted_data =>
          match decode_utf8 decrypted_data with
          | None => Raise UnicodeDecodeError
          | Some history_json =>
              match json_loads history_json with
              | JsonList history => Ok history
              | JsonNotList => Raise (ValueError expected_list_message)
              | JSONDecodeError => Raise (ValueError invalid_json_message)
              end
          end
      end
  end.

(** *** zakat_monitor.py: the monitor's own history file *)

(** [_load_balance_history]: every exception inside the [try] is logged
    and the function falls through to [return []]. The file is [None] when
    it does not exist. A JSON document that is not a list has no place in
    the typed ledger; the function is given the empty list there, which is
    what the code returns when [len] rejects the document. *)
Definition _load_balance_history (key : fernet_key) (fs : option token)
  : list entry :=
  match fs with
  | None => []
  | Some encrypted_data =>
      match fernet_decrypt key encrypted_data with
      | None => []
      | Some decrypted_data =>
          match decode_utf8 decrypted_data with
          | None => []
          | Some text =>
              match json_loads text with
              | JsonList history => history
              | JsonNotList => []
              | JSONDecodeError => []
              end
          end
      end
  end.

(** [_save_balance_history]: the file is overwritten with the encrypted
    dump of [self.balance_history]. *)
Definition _save_balance_history (key : fernet_key) (r : entropy)
    (self : ZakatMonitor) (fs : option token) : option token :=
  let data := encode_utf8 (json_dumps (balance_history self)) in
  Some (fernet_encrypt key r data).

(** [record_zakat_payment]: a falsy [payment_date] ([None] or the empty
    string) takes the [else] branch and uses the current instant. *)
Definition record_zakat_payment (key : fernet_key) (r : entropy)
    (now : instant) (self : ZakatMonitor) (payment_date : option string)
    (fs : option token) : ZakatMonitor * option token * payment_outcome :=
  let parsed :=
    match payment_date with
    | Some (String c s as d) =>
        match strptime_dmy d with
        | Some dt => Some (d, isoformat dt)
        | None => None
        end
    | Some EmptyString | None =>
        Some (now_strftime_dmy now, now_isoformat now)
    end in
  match parsed with
  | None => (self, fs, InvalidDateFormat)
  | Some (gregorian_date, timestamp) =>
      let payment_entry := ZakatPaid timestamp gregorian_date in
      let loaded := _load_balance_history key fs in
      let self' := set_balance_history self (loaded ++ [payment_entry]) in
      (self', _save_balance_history key r self' fs,
       PaymentRecorded gregorian_date)
  end.

Definition is_ascii_digit (c : ascii) : bool :=
  let n := N_of_ascii c in ((48 <=? n) && (n <=? 57))%N.

(** [re.match(r'^\d{2}\.\d{2}\.\d{4}$', s)], read on ASCII digits; [$]
    also matches before a final line feed. *)
Definition matches_date_pattern (s : string) : bool :=
  match s with
  | String d1 (String d2 (String p1 (String m1 (String m2 (String p2
      (String y1 (String y2 (String y3 (String y4 rest))))))))) =>
      forallb is_ascii_digit [d1; d2; m1; m2; y1; y2; y3; y4]
      && Ascii.eqb p1 "." && Ascii.eqb p2 "."
      && match rest with
         | EmptyString => true
         | String c EmptyString => Ascii.eqb c "010"
         | _ => false
         end
  | _ => false
  end.

(** [_validate_date_format] (lines 155-166), the strict check of the
    class: the pattern, then [strptime]. [record_zakat_payment] does not
    call it. *)
Definition _validate_date_format (date_str : string) : bool :=
  match date_str with
  | EmptyString => false
  | _ =>
      if matches_date_pattern date_str
      then bool_decide (is_Some (strptime_dmy date_str))
      else false
  end.

(** *** zakat_monitor.py: the statement period of a run *)

(** Lines 900-917 of [process_multi_account_statements]: one step of the
    loop over the accounts, for an account whose statement was read.
    [period_end] is [balance_info.get('period_end')]; [None] and the empty
    string are falsy. When either date fails to parse, the strings are
    compared instead. *)
Definition track_latest_period (latest_period : option string)
    (period_end : option string) : option string :=
  match period_end with
  | None | Some EmptyString => latest_period
  | Some current_period =>
      match latest_period with
      | None | Some EmptyString => Some current_period
      | Some latest =>
          match strptime_dmy current_period, strptime_dmy latest with
          | Some current_dt, Some latest_dt =>
              if datetime_gt current_dt latest_dt then Some current_period
              else Some latest
          | _, _ =>
              if String.ltb latest current_period then Some current_period
              else Some latest
          end
      end
  end.
End Storage.

(** The result of [process_multi_account_statements] for one e-mail source,
    as far as [_process_all_sources] reads it. *)
Record source_result := {
  total_balance_bam : float;
  period_end : string
}.

(** [max(iterable)] on strings: the first of the greatest elements. *)
Definition py_max_str (first : string) (rest : list string) : string :=
  foldl (λ best s, if String.ltb best s then s else best) first rest.

(** [sum(r.get('total_balance_bam', 0) for r in ...)], from the integer 0. *)
Definition py_sum (l : list float) : float :=
  foldl PrimFloat.add 0%float l.

(** Lines 993-1006 of [_process_all_sources], given the results of the
    sources that returned one: [None] when there is none, else the grand
    total and the period end, which is [latest_period or today]. *)
Definition merge_all_sources (today : string)
    (all_source_results : list source_result) : option (float * string) :=
  match all_source_results with
  | [] => None
  | r :: rs =>
      let grand_total_bam := py_sum (total_balance_bam <$> all_source_results) in
      let latest_period := py_max_str (period_end r) (period_end <$> rs) in
      Some (grand_total_bam,
            match latest_period with
            | EmptyString => today
            | _ => latest_period
            end)
  end.

(** ** app/adapter.py: the override gate of [run_analysis] *)

(** Lines 158-162: the configured override reaches the monitor only when it
    is present and enabled. *)
Definition adapter_override (configured : option year_progress_override_cfg)
  : option year_progress_override_cfg :=
  match configured with
  | Some ov => if enabled ov then Some ov else None
  | None => None
  end.

Definition adapter_set_override (configured : option year_progress_override_cfg)
    (self : ZakatMonitor) : ZakatMonitor :=
  {| balance_history := balance_history self;
     year_progress_override := adapter_override configured;
     additional_assets := additional_assets self |}.

(** ** A reference instance of the libraries

    The calendar part follows [datetime.strptime] with the format
    ['%d.%m.%Y'] on ASCII text: the day is one of [3[0-1]], [[1-2]\d],
    [0[1-9]], [[1-9]] or a space and [[1-9]]; the month one of [1[0-2]],
    [0[1-9]], [[1-9]]; the year four digits; nothing may follow; and the
    three numbers must name a day of the calendar, in the years 1 to 9999.
    The serialisation part is the simplest one that meets [LibrariesSpec]: a
    text is the ledger it denotes, and a token is its plaintext sealed with
    the key that made it. *)

Module Reference.

Record date := { year : Z; month : Z; day : Z }.

Definition digit_of (c : ascii) : option Z :=
  let n := Z.of_N (N_of_ascii c) in
  if (48 <=? n) && (n <=? 57) then Some (n - 48) else None.

Definition digit_in (lo hi : Z) (c : ascii) : option Z :=
  match digit_of c with
  | Some d => if (lo <=? d) && (d <=? hi) then Some d else None
  | None => None
  end.

(** The text up to the first full stop, and the text after it. *)
Fixpoint split_at_dot (s : string) : option (string * string) :=
  match s with
  | EmptyString => None
  | String c s' =>
      if Ascii.eqb c "." then Some (EmptyString, s')
      else match split_at_dot s' with
           | Some (before, after) => Some (String c before, after)
           | None => None
           end
  end.

Definition parse_day (s : string) : option Z :=
  match s with
  | String a EmptyString => digit_in 1 9 a
  | String a (String b EmptyString) =>
      match digit_of a, digit_of b with
      | Some 3, Some d => if d <=? 1 then Some (30 + d) else None
      | Some 1, Some d => Some (10 + d)
      | Some 2, Some d => Some (20 + d)
      | Some 0, Some d => if 1 <=? d then Some d else None
      | None, Some d =>
          if Ascii.eqb a " " && (1 <=? d) then Some d else None
      | _, _ => None
      end
  | _ => None
  end.

Definition parse_month (s : string) : option Z :=
  match s with
  | String a EmptyString => digit_in 1 9 a
  | String a (String b EmptyString) =>
      match digit_of a, digit_of b with
      | Some 1, Some d => if d <=? 2 then Some (10 + d) else None
      | Some 0, Some d => if 1 <=? d then Some d else None
      | _, _ => None
      end
  | _ => None
  end.

Definition parse_year (s : string) : option Z :=
  match s with
  | String a (String b (String c (String d EmptyString))) =>
      match digit_of a, digit_of b, digit_of c, digit_of d with
      | Some a, Some b, Some c, Some d =>
          Some (1000 * a + 100 * b + 10 * c + d)
      | _, _, _, _ => None
      end
  | _ => None
  end.

Definition is_leap (y : Z) : bool :=
  ((y mod 4 =? 0) && negb (y mod 100 =? 0)) || (y mod 400 =? 0).

Definition days_in_month (y m : Z) : Z :=
  if m =? 2 then (if is_leap y then 29 else 28)
  else if (m =? 4) || (m =? 6) || (m =? 9) || (m =? 11) then 30
  else 31.

Definition strptime (s : string) : option date :=
  match split_at_dot s with
  | Some (ds, rest) =>
      match split_at_dot rest with
      | Some (ms, ys) =>
          match parse_day ds, parse_month ms, parse_year ys with
          | Some d, Some m, Some y =>
              if (1 <=? y) && (d <=? days_in_month y m)
              then Some {| year := y; month := m; day := d |}
              else None
          | _, _, _ => None
          end
      | None => None
      end
  | None => None
  end.

Definition date_gt (a b : date) : bool :=
  (year b <? year a)
  || ((year b =? year a)
      && ((month b <? month a)
          || ((month b =? month a) && (day b <? day a)))).

Definition digit_char (d : Z) : ascii := ascii_of_N (Z.to_N (48 + d mod 10)).

Definition pad2 (n : Z) : string :=
  String (digit_char (n / 10)) (String (digit_char n) EmptyString).

Definition pad4 (n : Z) : string :=
  String (digit_char (n / 1000)) (String (digit_char (n / 100)) (pad2 n)).

(** [isoformat()] of a [datetime] at midnight. *)
Definition iso (d : date) : string :=
  pad4 (year d) +:+ "-" +:+ pad2 (month d) +:+ "-" +:+ pad2 (day d)
    +:+ "T00:00:00".

Definition libraries : Libraries := {|
  json_text := list entry;
  plaintext := list entry;
  token := string * list entry;
  fernet_key := string;
  entropy := unit;
  datetime := date;
  json_dumps := λ h, h;
  json_loads := JsonList;
  encode_utf8 := λ t, t;
  decode_utf8 := Some;
  fernet_encrypt := λ k _ m, (k, m);
  fernet_decrypt := λ k t, if decide (t.1 = k) then Some t.2 else None;
  strptime_dmy := strptime;
  datetime_gt := date_gt;
  isoformat := iso
|}.

End Reference.

(** ** Ledgers of the test suite (tests/test_core_logic.py)

    [test_entry i above] is the [i]-th history entry the tests append:
    balance 20000 when above the nisab of 16000 and 5000 when below, dated
    the [i+1]-th of January 2025. *)

Definition test_entry (i : Z) (above : bool) : entry :=
  Observation
    {| balance := if above then 20000%float else 5000%float;
       nisab_threshold := 16000%float;
       above_nisab := above;
       hijri_year := Some 1446;
       hijri_month := Some (i + 1);
       gregorian_date := Some (Reference.pad2 (i + 1) +:+ ".01.2025");
       timestamp := "2025-01-" +:+ Reference.pad2 (i + 1) +:+ "T00:00:00" |}.

Definition test_entries (n : nat) (above : bool) : list entry :=
  (λ i, test_entry (Z.of_nat i) above) <$> seq 0 n.

Definition test_monitor (history : list entry) : ZakatMonitor :=
  {| balance_history := history;
     year_progress_override := None;
     additional_assets := 0%float |}.

Definition test_date (hijri_month : Z) (gregorian : string) : current_date_t :=
  {| cd_hijri_year := Some 1446;
     cd_hijri_month := Some hijri_month;
     cd_gregorian_date := Some gregorian |}.

(** The ledger of [test_payment_resets_consecutive_count]: twelve months
    above the nisab, a payment marker, one more month above. *)
Definition marker_history : list entry :=
  test_entries 12 true
    ++ [ZakatPaid "2025-01-15T10:00:00" "15.01.2025";
        Observation
          {| balance := 20000%float;
             nisab_threshold := 16000%float;
             above_nisab := true;
             hijri_year := Some 1446;
             hijri_month := Some 13;
             gregorian_date := Some "16.01.2025";
             timestamp := "2025-01-16T00:00:00" |}].

(** A run of the engine for each of [n] successive months, all above the
    nisab, from the given monitor: run [i] is for the statement dated the
    first of month [i mod 12 + 1] of the year [2001 + i / 12] and takes place
    that day at nine. *)
Definition monthly_date (i : Z) : current_date_t :=
  {| cd_hijri_year := Some (1421 + i / 12);
     cd_hijri_month := Some (i mod 12 + 1);
     cd_gregorian_date :=
       Some ("01." +:+ Reference.pad2 (i mod 12 + 1) +:+ "."
               +:+ Reference.pad4 (2001 + i / 12)) |}.

Definition monthly_instant (i : Z) : string :=
  Reference.pad4 (2001 + i / 12) +:+ "-" +:+ Reference.pad2 (i mod 12 + 1)
    +:+ "-01T09:00:00".

Definition run_month (self : ZakatMonitor) (i : Z) : ZakatMonitor :=
  (check_hijri_year_threshold self 20000%float 16000%float
     (monthly_date i) 20000%float (monthly_instant i)).1.

Definition run_months (n : nat) (self : ZakatMonitor) : ZakatMonitor :=
  foldl run_month self (Z.of_nat <$> seq 0 n).

(** The observation that run [i] records. *)
Definition monthly_observation (i : Z) : entry :=
  Observation
    (make_current_entry 20000%float 16000%float (monthly_date i)
       (monthly_instant i)).

(** The override of the API tests: eight months asserted. *)
Definition override_8 : year_progress_override_cfg :=
  {| enabled := true;
     months_above_nisab := 8;
     as_of_hijri_date := "01/01/1446" |}.

(** The ledger after the engine has recorded, one run after the other, the
    observations [obs]. *)
Definition record_observations (history : list entry)
    (obs : list observation) : list entry :=
  foldl updated_history history obs.

(** ** Ledger invariant *)




(** A payment recorded for 15 January 2025, as [record_zakat_payment] builds
    it, and the observation of a statement that ends that day. *)
Definition january_15_marker : entry :=
  ZakatPaid "2025-01-15T00:00:00" "15.01.2025".

Definition january_15_observation : observation :=
  make_current_entry 20000%float 16000%float (test_date 7 "15.01.2025")
    "2025-02-01T08:30:00".

(** Two sources as in [test_merges_two_sources], with period ends on either
    side of the new year. *)
#[warnings="-inexact-float"] Definition personal_result : source_result :=
  {| total_balance_bam := 1977.92%float; period_end := "31.12.2025" |}.

#[warnings="-inexact-float"] Definition company_result : source_result :=
  {| total_balance_bam := 3955.83%float; period_end := "01.01.2026" |}.

(** * Further operations *)

(** The observation of a [test_entry]. *)
Definition test_observation (i : Z) (above : bool) : observation :=
  {| balance := if above then 20000%float else 5000%float;
     nisab_threshold := 16000%float;
     above_nisab := above;
     hijri_year := Some 1446;
     hijri_month := Some (i + 1);
     gregorian_date := Some (Reference.pad2 (i + 1) +:+ ".01.2025");
     timestamp := "2025-01-" +:+ Reference.pad2 (i + 1) +:+ "T00:00:00" |}.

(** [a] is recorded no later than [b]. *)
Definition observation_le (a b : observation) : Prop :=
  String.ltb (timestamp b) (timestamp a) = false.

(** [l[start:]]: a negative [start] counts from the end and stops at the
    front of the list; a [start] beyond the end gives the empty list. *)
Definition py_slice_from {A} (start : Z) (l : list A) : list A :=
  if start <? 0
  then drop (Z.to_nat (Z.max 0 (Z.of_nat (length l) + start))) l
  else drop (Z.to_nat start) l.

Section MoreStorage.
Context {L : Libraries}.

(** *** app/storage/history.py: the other methods of HistoryStorage *)

(** [append_entry] (lines 112-132): an [entry] is a dict by its type. An
    exception of [load_history] leaves the method before anything is
    written. *)
Definition append_entry (key : fernet_key) (r : entropy) (e : entry)
    (fs : option history_file) : result bool * option history_file :=
  match load_history key fs with
  | Raise err => (Raise err, fs)
  | Ok history =>
      let saved := save_history key r (history ++ [e]) fs in
      (Ok saved.1, saved.2)
  end.

(** [get_recent_entries] (lines 134-145):
    [history[-count:] if len(history) > count else history]. *)
Definition get_recent_entries (key : fernet_key) (count : Z)
    (fs : option history_file) : result (list entry) :=
  match load_history key fs with
  | Raise err => Raise err
  | Ok history =>
      Ok (if count <? Z.of_nat (length history)
          then py_slice_from (- count) history
          else history)
  end.

(** [clear_history] (lines 147-154) *)
Definition clear_history (key : fernet_key) (r : entropy)
    (fs : option history_file) : bool * option history_file :=
  save_history key r [] fs.

(** [history_exists] (lines 156-158) *)
Definition history_exists (fs : option history_file) : bool :=
  match fs with
  | Some _ => true
  | None => false
  end.

(** [delete_history] (lines 160-170) *)
Definition delete_history (fs : option history_file)
  : bool * option history_file :=
  match fs with
  | Some _ => (true, None)
  | None => (false, fs)
  end.

(** [get_entry_count] (lines 172-180) *)
Definition get_entry_count (key : fernet_key) (fs : option history_file)
  : result nat :=
  match load_history key fs with
  | Raise err => Raise err
  | Ok history => Ok (length history)
  end.

(** [filter_entries] (lines 182-193); [filter_func] is read by its truth
    value. *)
Definition filter_entries (key : fernet_key) (filter_func : entry → bool)
    (fs : option history_file) : result (list entry) :=
  match load_history key fs with
  | Raise err => Raise err
  | Ok history => Ok (filter (λ e, filter_func e = true) history)
  end.

End MoreStorage.

(** *** zakat_monitor.py: the nisab threshold *)

Definition NISAB_MIN_BAM : float := 5000%float.
Definition NISAB_MAX_BAM : float := 35000%float.

(** What one of the three patterns finds in a page: no match, a match whose
    number does not parse, or a parsed number. *)
Inductive pattern_outcome :=
| NoMatch
| MatchUnparsed
| MatchValue (nisab_value : float).

(** What one of the three URLs answers: an exception of the request, or a
    status code and, for the text of the page, the outcome of each pattern
    in order. *)
Inductive url_outcome :=
| RequestFailed
| HttpResponse (status_code : Z) (patterns : list pattern_outcome).

(** [NISAB_MIN_BAM <= nisab_value <= NISAB_MAX_BAM] *)
Definition nisab_in_range (nisab_value : float) : bool :=
  PrimFloat.leb NISAB_MIN_BAM nisab_value
  && PrimFloat.leb nisab_value NISAB_MAX_BAM.

(** The loop over the patterns of one page (lines 1044-1061): a value out
    of range is logged and the next pattern is tried. *)
Fixpoint first_nisab_in_range (patterns : list pattern_outcome)
  : option float :=
  match patterns with
  | [] => None
  | MatchValue nisab_value :: rest =>
      if nisab_in_range nisab_value then Some nisab_value
      else first_nisab_in_range rest
  | _ :: rest => first_nisab_in_range rest
  end.

(** [get_official_nisab_bam] (lines 1014-1070), on the answers of the URLs
    in order. *)
Fixpoint get_official_nisab_bam (responses : list url_outcome)
  : option float :=
  match responses with
  | [] => None
  | RequestFailed :: rest => get_official_nisab_bam rest
  | HttpResponse status_code patterns :: rest =>
      if status_code =? 200 then
        match first_nisab_in_range patterns with
        | Some nisab_value => Some nisab_value
        | None => get_official_nisab_bam rest
        end
      else get_official_nisab_bam rest
  end.

(** Where the threshold comes from; the source text of the program also
    carries the time of the fetch or the fallback value. *)
Inductive nisab_source :=
| OfficialWebsite
| FallbackConfiguration.

(** [calculate_nisab_threshold] (lines 1072-1085): [if official_nisab:] is
    false for [None] and for a float equal to zero. *)
Definition calculate_nisab_threshold (responses : list url_outcome)
    (NISAB_FALLBACK_BAM : float) : float * nisab_source :=
  match get_official_nisab_bam responses with
  | Some official_nisab =>
      if PrimFloat.eqb official_nisab 0%float
      then (NISAB_FALLBACK_BAM, FallbackConfiguration)
      else (official_nisab, OfficialWebsite)
  | None => (NISAB_FALLBACK_BAM, FallbackConfiguration)
  end.

(** *** zakat_monitor.py: the balances of one e-mail source *)

#[warnings="-inexact-float"] Definition EUR_TO_BAM_RATE : float := 1.955830%float.

Inductive currency := BAM | EUR.

#[local] Instance currency_eq_dec : EqDecision currency.
Proof. solve_decision. Defined.

(** A downloaded statement: the account its file name points to
    ([identify_account_from_filename]) and what
    [extract_balance_from_procredit_pdf] reads, the ending balance and the
    end of the period, or [None]. *)
Record pdf_attempt := {
  identified : option currency;
  extracted : option (float * option string)
}.

(** [balance_info] once a balance was read. *)
Record BalanceInfo := {
  ending_balance : float;
  bi_period_end : option string;
  filename_account : option currency
}.

(** The loop over [statements[:3]] (lines 848-875), on the list it is
    given: [None] is a statement whose PDF could not be downloaded, which
    leaves [balance_info] as it is; the first balance read ends the loop. *)
Fixpoint try_statements (balance_info : option BalanceInfo)
    (statements : list (option pdf_attempt)) : option BalanceInfo :=
  match statements with
  | [] => balance_info
  | None :: rest => try_statements balance_info rest
  | Some pdf :: rest =>
      match extracted pdf with
      | Some (balance, period) =>
          Some {| ending_balance := balance;
                  bi_period_end := period;
                  filename_account := identified pdf |}
      | None => try_statements None rest
      end
  end.

(** [AccountBalance] *)
Record AccountBalance := {
  ab_balance : float;
  ab_balance_bam : float;
  ab_period : option string;
  ab_found : bool;
  ab_account_number : string;
  ab_pdf_filename : string;
  ab_filename_account_match : bool
}.

Definition account_not_found (account_number : string) : AccountBalance :=
  {| ab_balance := 0%float;
     ab_balance_bam := 0%float;
     ab_period := None;
     ab_found := false;
     ab_account_number := account_number;
     ab_pdf_filename := "none";
     ab_filename_account_match := false |}.

(** One round of the loop over the two accounts (lines 829-929): the
    account's entry and the [balance_info] that was read, if any. *)
Definition process_account (cur : currency) (account_number : string)
    (statements : list (option pdf_attempt))
  : AccountBalance * option BalanceInfo :=
  match try_statements None (take 3 statements) with
  | Some balance_info =>
      let original_balance := ending_balance balance_info in
      let balance_bam :=
        match cur with
        | EUR => PrimFloat.mul original_balance EUR_TO_BAM_RATE
        | BAM => original_balance
        end in
      ({| ab_balance := original_balance;
          ab_balance_bam := balance_bam;
          ab_period := bi_period_end balance_info;
          ab_found := true;
          ab_account_number := account_number;
          ab_pdf_filename := "statement.pdf";
          ab_filename_account_match :=
            bool_decide (filename_account balance_info = Some cur) |},
       Some balance_info)
  | None => (account_not_found account_number, None)
  end.

(** The combined result of one source. *)
Record combined_info := {
  bam_account : AccountBalance;
  eur_account : AccountBalance;
  ci_total_balance_bam : float;
  ci_period_end : string
}.

Section Normalizer.
Context {L : Libraries}.

(** [process_multi_account_statements] (lines 810-955), on the statements
    found for the two accounts, most recent first. [today] is
    [datetime.now().strftime('%d.%m.%Y')]. *)
Definition process_multi_account_statements (today : string)
    (bam eur : string) (bam_statements eur_statements : list (option pdf_attempt))
  : combined_info :=
  let '(bam_balance, bam_info) := process_account BAM bam bam_statements in
  let latest_period :=
    match bam_info with
    | Some info => track_latest_period None (bi_period_end info)
    | None => None
    end in
  let '(eur_balance, eur_info) := process_account EUR eur eur_statements in
  let latest_period :=
    match eur_info with
    | Some info => track_latest_period latest_period (bi_period_end info)
    | None => latest_period
    end in
  {| bam_account := bam_balance;
     eur_account := eur_balance;
     ci_total_balance_bam :=
       PrimFloat.add (ab_balance_bam bam_balance) (ab_balance_bam eur_balance);
     ci_period_end :=
       match latest_period with
       | None | Some EmptyString => today
       | Some period => period
       end |}.

End Normalizer.

(** What [_process_all_sources] reads of a combined result. *)
Definition to_source_result (c : combined_info) : source_result :=
  {| total_balance_bam := ci_total_balance_bam c;
     period_end := ci_period_end c |}.

(** [_process_all_sources] (lines 957-1012), on the outcome of each source
    in order: [None] for a source whose connection or processing raised or
    returned nothing. *)
Definition _process_all_sources (today : string)
    (outcomes : list (option combined_info)) : option (float * string) :=
  merge_all_sources today (to_source_result <$> omap id outcomes).

(** *** zakat_monitor.py: one analysis *)

(** [convert_gregorian_to_hijri] (lines 1087-1102): [to_hijri] is the
    conversion of the library, year and month of the Hijri date, [None] when
    the text does not split into three numbers or the library refuses
    them. The Gregorian date is kept in both cases. *)
Definition convert_gregorian_to_hijri (to_hijri : string → option (Z * Z))
    (date_str : string) : current_date_t :=
  match to_hijri date_str with
  | Some (hijri_year, hijri_month) =>
      {| cd_hijri_year := Some hijri_year;
         cd_hijri_month := Some hijri_month;
         cd_gregorian_date := Some date_str |}
  | None =>
      {| cd_hijri_year := None;
         cd_hijri_month := None;
         cd_gregorian_date := Some date_str |}
  end.

(** Why [run_analysis] raises [RuntimeError]. *)
Inductive analysis_failure :=
| MissingConfiguration
| NoBalanceInformation.

Inductive analysis_outcome :=
| Analysed (analysis_result : AnalysisResult)
| AnalysisFailed (why : analysis_failure).

(** What the outside world answers during one analysis. *)
Record analysis_inputs := {
  credentials_present : bool;
  today : string;
  source_outcomes : list (option combined_info);
  nisab_responses : list url_outcome;
  NISAB_FALLBACK_BAM : float;
  to_hijri : string → option (Z * Z);
  now : string
}.

Section Analysis.
Context {L : Libraries}.

(** [run_analysis] (lines 1563-1699) up to the save of the ledger. The
    report, the e-mail and the artifact that follow read the verdict and
    write neither the ledger nor its file. *)
Definition run_analysis (key : fernet_key) (r : entropy)
    (inputs : analysis_inputs) (self : ZakatMonitor) (fs : option token)
  : ZakatMonitor * option token * analysis_outcome :=
  if negb (credentials_present inputs)
  then (self, fs, AnalysisFailed MissingConfiguration)
  else
    match _process_all_sources (today inputs) (source_outcomes inputs) with
    | None => (self, fs, AnalysisFailed NoBalanceInformation)
    | Some (total_balance_bam, period_end) =>
        if PrimFloat.eqb total_balance_bam 0%float
        then (self, fs, AnalysisFailed NoBalanceInformation)
        else
          let nisab_threshold :=
            (calculate_nisab_threshold (nisab_responses inputs)
               (NISAB_FALLBACK_BAM inputs)).1 in
          let current_date :=
            match period_end with
            | EmptyString =>
                convert_gregorian_to_hijri (to_hijri inputs) (today inputs)
            | _ => convert_gregorian_to_hijri (to_hijri inputs) period_end
            end in
          let bank_balance := total_balance_bam in
          let total_balance_with_assets :=
            PrimFloat.add bank_balance (additional_assets self) in
          let '(self', analysis_result) :=
            check_hijri_year_threshold self total_balance_with_assets
              nisab_threshold current_date bank_balance (now inputs) in
          (self', _save_balance_history key r self' fs,
           Analysed analysis_result)
    end.

(** [ZakatMonitorAdapter.run_analysis] (app/adapter.py, lines 152-165), for
    an initialised monitor. *)
Definition adapter_run_analysis
    (configured : option year_progress_override_cfg) (key : fernet_key)
    (r : entropy) (inputs : analysis_inputs) (self : ZakatMonitor)
    (fs : option token) : ZakatMonitor * option token * analysis_outcome :=
  run_analysis key r inputs (adapter_set_override configured self) fs.

End Analysis.

(** A statement of the BAM account read with a balance of 30000 for the
    period ending 31.01.2025, the answers of a source that has it and no EUR
    statement, and the inputs of an analysis with that one source. *)
Definition january_statement : option pdf_attempt :=
  Some {| identified := Some BAM;
          extracted := Some (30000%float, Some "31.01.2025") |}.

Definition january_inputs (L : Libraries) : analysis_inputs :=
  {| credentials_present := true;
     today := "05.02.2025";
     source_outcomes :=
       [Some (process_multi_account_statements "05.02.2025" "1234" "5678"
                [None; january_statement] [])];
     nisab_responses := [RequestFailed; HttpResponse 200 [MatchValue 24624%float]];
     NISAB_FALLBACK_BAM := 24624%float;
     to_hijri := λ _, Some (1446, 8);
     now := "2025-02-05T09:00:00.000000" |}.

(** *** app/adapter.py: the environment of the process *)

(** The white space of [str.strip()], in UTF-8: the ASCII controls 9 to 13
    and 28 to 31, the space, U+0085, U+00A0, U+1680, U+2000 to U+200A,
    U+2028, U+2029, U+202F, U+205F and U+3000. *)
Definition py_whitespace : list (list N) :=
  ((λ b : N, [b]) <$> [9; 10; 11; 12; 13; 28; 29; 30; 31; 32]%N)
  ++ [[194; 133]; [194; 160]; [225; 154; 128]]%N
  ++ ((λ b : N, [226; 128; b]%N) <$>
        [128; 129; 130; 131; 132; 133; 134; 135; 136; 137; 138;
         168; 169; 175]%N)
  ++ [[226; 129; 159]; [227; 128; 128]]%N.

(** [s] without the prefix [p], when it starts with it. *)
Fixpoint without_prefix (p s : list N) : option (list N) :=
  match p, s with
  | [], _ => Some s
  | a :: p', b :: s' => if (a =? b)%N then without_prefix p' s' else None
  | _ :: _, [] => None
  end.

(** [s] without its first character, when that is white space. *)
Fixpoint without_leading_space (spaces : list (list N)) (s : list N)
  : option (list N) :=
  match spaces with
  | [] => None
  | w :: spaces' =>
      match without_prefix w s with
      | Some rest => Some rest
      | None => without_leading_space spaces' s
      end
  end.

(** [lstrip], on the bytes of the text; each round removes one character,
    so as many rounds as there are bytes suffice. *)
Fixpoint lstrip_rounds (rounds : nat) (spaces : list (list N)) (s : list N)
  : list N :=
  match rounds with
  | O => s
  | S rounds' =>
      match without_leading_space spaces s with
      | Some rest => lstrip_rounds rounds' spaces rest
      | None => s
      end
  end.

Definition py_strip (s : list N) : list N :=
  let left := lstrip_rounds (length s) py_whitespace s in
  reverse (lstrip_rounds (length left) (reverse <$> py_whitespace)
             (reverse left)).

(** [value.replace('\xa0', ' ')]: U+00A0 is the bytes 194, 160. *)
Fixpoint replace_nbsp (s : list N) : list N :=
  match s with
  | [] => []
  | a :: s' =>
      match s' with
      | b :: s'' =>
          if ((a =? 194) && (b =? 160))%N then 32%N :: replace_nbsp s''
          else a :: replace_nbsp s'
      | [] => [a]
      end
  end.

Definition bytes_of (s : string) : list N :=
  N_of_ascii <$> String.list_ascii_of_string s.

Definition text_of (l : list N) : string :=
  String.string_of_list_ascii (ascii_of_N <$> l).

(** [_sanitize_value] (lines 109-115) *)
Definition _sanitize_value (value : string) : string :=
  text_of (py_strip (replace_nbsp (bytes_of value))).

(** [os.environ[key] = value] for [Some value], and
    [if key in os.environ: del os.environ[key]] for [None]. *)
Definition set_or_delete (key : string) (value : option string)
    (environ : gmap string string) : gmap string string :=
  match value with
  | Some v => <[key := v]> environ
  | None => delete key environ
  end.

(** [d[key] = value] on a dict in insertion order. *)
Definition dict_set {V} (key : string) (value : V) (d : list (string * V))
  : list (string * V) :=
  if decide (key ∈ d.*1)
  then (λ kv, if decide (kv.1 = key) then (key, value) else kv) <$> d
  else d ++ [(key, value)].

(** The environment of the process and the [_original_env] of the adapter. *)
Record adapter_env := {
  os_environ : gmap string string;
  _original_env : list (string * option string)
}.

(** [_apply_env_mappings] (lines 117-124); [env_mappings] is a dict, the
    list of its items in order. *)
Definition _apply_env_mappings (env_mappings : list (string * option string))
    (st : adapter_env) : adapter_env :=
  foldl (λ st kv,
           {| os_environ :=
                set_or_delete kv.1 (_sanitize_value <$> kv.2) (os_environ st);
              _original_env :=
                dict_set kv.1 (os_environ st !! kv.1) (_original_env st) |})
    st env_mappings.

(** [_restore_env] (lines 126-133) *)
Definition _restore_env (st : adapter_env) : adapter_env :=
  {| os_environ :=
       foldl (λ environ kv, set_or_delete kv.1 kv.2 environ) (os_environ st)
         (_original_env st);
     _original_env := [] |}.

(** An environment and the mappings of a configuration with a padded user
    name and no company account. *)
Definition sample_environ : gmap string string :=
  {[ "EMAIL_USERNAME" := "old@example.com"; "HOME" := "/Users/me" ]}.

Definition sample_mappings : list (string * option string) :=
  [("EMAIL_USERNAME", Some " me@example.com ");
   ("COMPANY_EMAIL_USERNAME", None);
   ("BAM_ACCOUNT", Some "1234")].

(** The text starts with U+00A0, and the text holds no U+00A0. *)
Definition starts_nbsp (l : list N) : bool :=
  match l with
  | a :: b :: _ => ((a =? 194) && (b =? 160))%N
  | _ => false
  end.

Fixpoint no_nbsp (l : list N) : Prop :=
  match l with
  | [] => True
  | _ :: l' => starts_nbsp l = false ∧ no_nbsp l'
  end.

(** The observations of the first [n] monthly runs. *)
Definition monthly_observations (n : nat) : list observation :=
  (λ i, make_current_entry 20000%float 16000%float
          (monthly_date (Z.of_nat i)) (monthly_instant (Z.of_nat i)))
    <$> seq 0 n.

(** * Properties *)

(** ** Order of timestamps *)

Lemma ltb_asym (s t : string) : String.ltb s t = true → String.ltb t s = false.
Proof.
  unfold String.ltb. rewrite (String.compare_antisym t s).
  destruct (String.compare s t); simpl; congruence.
Qed.

Lemma insert_by_timestamp_perm x l : insert_by_timestamp x l ≡ₚ x :: l.
Proof.
  induction l as [|y l IH]; simpl; [done|].
  destruct (String.ltb _ _); [|done].
  rewrite IH. apply Permutation_swap.
Qed.

Lemma sorted_by_timestamp_perm l : sorted_by_timestamp l ≡ₚ l.
Proof.
  induction l as [|x l IH]; simpl; [done|].
  rewrite insert_by_timestamp_perm. by rewrite IH.
Qed.

Lemma sorted_by_timestamp_length l :
  length (sorted_by_timestamp l) = length l.
Proof. by rewrite sorted_by_timestamp_perm. Qed.

Lemma insert_by_timestamp_HdRel a x l :
  timestamp_le a x → HdRel timestamp_le a l →
  HdRel timestamp_le a (insert_by_timestamp x l).
Proof.
  intros Hax Hal. destruct l as [|y l]; simpl; [by constructor|].
  destruct (String.ltb _ _); constructor; [by inversion Hal|done].
Qed.

Lemma insert_by_timestamp_sorted x l :
  Sorted timestamp_le l → Sorted timestamp_le (insert_by_timestamp x l).
Proof.
  induction 1 as [|y l Hl IH Hy]; simpl; [by repeat constructor|].
  destruct (String.ltb _ _) eqn:Hlt.
  - constructor; [done|].
    apply insert_by_timestamp_HdRel; [|done]. by apply ltb_asym.
  - repeat constructor; done.
Qed.

Lemma sorted_by_timestamp_sorted l :
  Sorted timestamp_le (sorted_by_timestamp l).
Proof.
  induction l; simpl; [constructor|by apply insert_by_timestamp_sorted].
Qed.

Lemma ltb_timestamps_differ (a b : entry) :
  String.ltb (entry_timestamp a) (entry_timestamp b) = true →
  entry_timestamp a ≠ entry_timestamp b.
Proof.
  intros Hlt Heq. rewrite Heq in Hlt.
  pose proof (ltb_asym _ _ Hlt). congruence.
Qed.

Lemma insert_by_timestamp_stable t x l :
  filter (λ e, entry_timestamp e = t) (insert_by_timestamp x l)
  = filter (λ e, entry_timestamp e = t) (x :: l).
Proof.
  induction l as [|y l IH]; simpl; [done|].
  destruct (String.ltb _ _) eqn:Hlt; [|done].
  apply ltb_timestamps_differ in Hlt.
  rewrite (filter_cons _ y (insert_by_timestamp x l)), IH.
  rewrite !filter_cons. repeat case_decide; congruence.
Qed.

(** The sort is stable: entries with the same timestamp keep the order
    they have in the ledger. *)
Lemma sorted_by_timestamp_stable t l :
  filter (λ e, entry_timestamp e = t) (sorted_by_timestamp l)
  = filter (λ e, entry_timestamp e = t) l.
Proof.
  induction l as [|x l IH]; simpl; [done|].
  rewrite insert_by_timestamp_stable, !filter_cons, IH. done.
Qed.

(** ** The streak loop *)

Lemma counts_above_not_paid e : counts_above e = true → is_zakat_paid e = false.
Proof. by destruct e. Qed.

Lemma counts_above_false e :
  counts_above e = false →
  is_zakat_paid e = true ∨ ∃ o, e = Observation o ∧ above_nisab o = false.
Proof. destruct e as [o|]; simpl; eauto. Qed.

Lemma streak_loop_acc l acc : streak_loop acc l = acc + streak_loop 0 l.
Proof.
  revert acc. induction l as [|e l IH]; intros acc; simpl; [lia|].
  destruct (is_zakat_paid e); [lia|].
  destruct (counts_above e); [|lia].
  rewrite (IH (acc + 1)), (IH (0 + 1)). lia.
Qed.

(** The loop counts a prefix of the reversed history that is all above the
    nisab and stops at the first entry that is not. *)
Lemma streak_loop_run l :
  ∃ run rest,
    l = run ++ rest
    ∧ Forall (λ e, counts_above e = true) run
    ∧ (rest = [] ∨ ∃ e rest', rest = e :: rest' ∧ counts_above e = false)
    ∧ streak_loop 0 l = Z.of_nat (length run).
Proof.
  induction l as [|e l (run & rest & -> & Hrun & Hrest & Hn)].
  { exists [], []. repeat split; [constructor|by left]. }
  destruct (counts_above e) eqn:He.
  - exists (e :: run), rest. repeat split; [by constructor|done|].
    cbn [streak_loop]. rewrite (counts_above_not_paid e He), He.
    rewrite streak_loop_acc, Hn. cbn [length]. lia.
  - exists [], (e :: run ++ rest). repeat split; [constructor|by eauto|].
    cbn [streak_loop]. rewrite He. by destruct (is_zakat_paid e).
Qed.

Lemma streak_loop_ge l acc : acc ≤ streak_loop acc l.
Proof.
  revert acc. induction l as [|e l IH]; intros acc; simpl; [lia|].
  destruct (is_zakat_paid e); [lia|].
  destruct (counts_above e); [|lia].
  specialize (IH (acc + 1)). lia.
Qed.

Lemma streak_loop_le_length l : streak_loop 0 l ≤ Z.of_nat (length l).
Proof.
  destruct (streak_loop_run l) as (run & rest & -> & _ & _ & ->).
  rewrite length_app. lia.
Qed.

(** No prefix of the reversed history that is all above the nisab is longer
    than the count. *)
Lemma streak_loop_prefix p q :
  Forall (λ e, counts_above e = true) p →
  Z.of_nat (length p) ≤ streak_loop 0 (p ++ q).
Proof.
  induction 1 as [|e p He _ IH]; cbn [app length streak_loop].
  { apply streak_loop_ge. }
  rewrite (counts_above_not_paid e He), He, streak_loop_acc. lia.
Qed.

(** The streak of a ledger, read on the ledger sorted by timestamp: the
    sorted ledger ends with a run of entries above the nisab of that length,
    the entry before the run (if any) is a payment marker or an observation
    below the nisab, and no suffix that is all above the nisab is longer. *)
Lemma replay_streak_suffix history :
  ∃ older run,
    sorted_by_timestamp history = older ++ run
    ∧ Forall (λ e, counts_above e = true) run
    ∧ (older = [] ∨
       ∃ older' e, older = older' ++ [e]
         ∧ (is_zakat_paid e = true
            ∨ ∃ o, e = Observation o ∧ above_nisab o = false))
    ∧ replay_streak history = Z.of_nat (length run)
    ∧ ∀ pre suf, sorted_by_timestamp history = pre ++ suf →
        Forall (λ e, counts_above e = true) suf →
        (length suf ≤ length run)%nat.
Proof.
  unfold replay_streak.
  destruct (streak_loop_run (reverse (sorted_by_timestamp history)))
    as (run & rest & Hsplit & Hrun & Hrest & Hn).
  exists (reverse rest), (reverse run).
  assert (Hs : sorted_by_timestamp history = reverse rest ++ reverse run).
  { rewrite <- reverse_app, <- Hsplit. by rewrite reverse_involutive. }
  split; [done|]. split; [by apply Forall_reverse|]. split.
  { destruct Hrest as [->|(e & rest' & -> & He)]; [by left|right].
    exists (reverse rest'), e. split; [by rewrite reverse_cons|].
    by apply counts_above_false. }
  rewrite length_reverse. split; [done|].
  intros pre suf Hpre Hsuf.
  assert (Z.of_nat (length suf) ≤ Z.of_nat (length run)); [|lia].
  rewrite <- Hn, Hpre, reverse_app, <- (length_reverse suf).
  apply streak_loop_prefix. by apply Forall_reverse.
Qed.

(** ** Eviction *)

Lemma py_last_n_length {A} n (l : list A) :
  length (py_last_n n l) = (n `min` length l)%nat.
Proof. unfold py_last_n. rewrite length_drop. lia. Qed.

Lemma py_last_n_split {A} n (l : list A) :
  l = take (length l - n) l ++ py_last_n n l.
Proof. unfold py_last_n. by rewrite take_drop. Qed.

Lemma py_last_n_short {A} n (l : list A) :
  (length l ≤ n)%nat → py_last_n n l = l.
Proof.
  intros Hn. unfold py_last_n. by replace (length l - n)%nat with 0%nat by lia.
Qed.

Lemma dedup_append_length history current_entry :
  (length (dedup_append history current_entry) ≤ S (length history))%nat.
Proof.
  unfold dedup_append. rewrite length_app. cbn [length].
  pose proof (length_filter
    (λ e, entry_gregorian_date e ≠ gregorian_date current_entry) history).
  lia.
Qed.

Lemma updated_history_length history current_entry :
  (length (updated_history history current_entry) ≤ MAX_HISTORY_MONTHS)%nat.
Proof. unfold updated_history. rewrite py_last_n_length. lia. Qed.

Lemma py_last_n_snoc {A} n (l : list A) x :
  (0 < n)%nat → py_last_n n (py_last_n n l ++ [x]) = py_last_n n (l ++ [x]).
Proof.
  intros Hn. destruct (decide (length l ≤ n)%nat) as [Hshort|Hlong].
  { by rewrite (py_last_n_short n l). }
  unfold py_last_n. rewrite !length_app, length_drop. cbn [length].
  replace (length l - (length l - n) + 1 - n)%nat with 1%nat by lia.
  rewrite !drop_app_le by (rewrite ?length_drop; lia).
  rewrite drop_drop. do 2 f_equal. lia.
Qed.

Lemma filter_all {A} (P : A → Prop) `{!∀ x, Decision (P x)} (l : list A) :
  Forall P l → filter P l = l.
Proof.
  induction 1 as [|x l Hx _ IH]; [done|].
  by rewrite filter_cons_True, IH.
Qed.

(** An observation of a date not yet in the ledger removes nothing. *)
Lemma dedup_append_fresh history current_entry :
  Forall (λ e, entry_gregorian_date e ≠ gregorian_date current_entry) history →
  dedup_append history current_entry = history ++ [Observation current_entry].
Proof. intros Hfresh. unfold dedup_append. by rewrite filter_all. Qed.

(** Observations of pairwise distinct dates, recorded from an empty ledger,
    leave the last 24 of them. *)
Lemma record_observations_distinct obs :
  NoDup (gregorian_date <$> obs) →
  record_observations [] obs = py_last_n MAX_HISTORY_MONTHS (Observation <$> obs).
Proof.
  unfold record_observations.
  induction obs as [|o obs IH] using rev_ind; intros Hnd; [done|].
  rewrite fmap_app in Hnd. apply NoDup_app in Hnd as (Hobs & Hfresh & _).
  rewrite foldl_snoc, IH by done. unfold updated_history.
  rewrite dedup_append_fresh.
  { rewrite fmap_snoc. apply py_last_n_snoc. unfold MAX_HISTORY_MONTHS. lia. }
  apply Forall_forall. intros e He Hdate.
  apply (subseteq_drop _ _ e) in He.
  apply list_elem_of_fmap in He as (o' & -> & Ho').
  apply (Hfresh (gregorian_date o')).
  - by apply list_elem_of_fmap_2.
  - cbn in Hdate. rewrite Hdate. cbn. apply list_elem_of_singleton. done.
Qed.

(** ** The two outputs of the engine *)

Lemma check_balance_history self total_assets nisab current_date bank_balance
    now :
  balance_history
    (check_hijri_year_threshold self total_assets nisab current_date
       bank_balance now).1
  = updated_history (balance_history self)
      (make_current_entry total_assets nisab current_date now).
Proof. reflexivity. Qed.

Lemma check_consecutive_months self total_assets nisab current_date
    bank_balance now :
  r_consecutive_months_above_nisab
    (check_hijri_year_threshold self total_assets nisab current_date
       bank_balance now).2
  = apply_override (year_progress_override self)
      (replay_streak
         (updated_history (balance_history self)
            (make_current_entry total_assets nisab current_date now))).
Proof. reflexivity. Qed.

(** ** The claims about the eligibility engine *)

(** C1. For every ledger, the streak replayed by the engine (the count
    before the override is applied) is read on the ledger sorted by ascending
    timestamp: the sorted ledger ends with a run of observations above the
    nisab whose length is the streak; the entry just before the run, if
    there is one, is a payment marker or an observation below the nisab; no
    suffix made only of observations above the nisab is longer. The sorted
    ledger is a rearrangement of the ledger in ascending timestamps, entries
    of equal timestamp in their ledger order. The
    value the engine reports is the override applied to that streak. With
    twelve entries above the nisab, then a payment marker, then two entries
    above the nisab (the second one being the current run), the streak is 2
    and no zakat is due. *)
Theorem C1_streak_is_trailing_run_above_nisab :
  (∀ history : list entry,
     sorted_by_timestamp history ≡ₚ history
     ∧ Sorted timestamp_le (sorted_by_timestamp history)
     ∧ (∀ t, filter (λ e, entry_timestamp e = t) (sorted_by_timestamp history)
             = filter (λ e, entry_timestamp e = t) history)
     ∧ ∃ older run,
         sorted_by_timestamp history = older ++ run
         ∧ Forall (λ e, counts_above e = true) run
         ∧ (older = [] ∨
            ∃ older' e, older = older' ++ [e]
              ∧ (is_zakat_paid e = true
                 ∨ ∃ o, e = Observation o ∧ above_nisab o = false))
         ∧ replay_streak history = Z.of_nat (length run)
         ∧ ∀ pre suf, sorted_by_timestamp history = pre ++ suf →
             Forall (λ e, counts_above e = true) suf →
             (length suf ≤ length run)%nat)
  ∧ (∀ self total_assets nisab current_date bank_balance now,
       let out := check_hijri_year_threshold self total_assets nisab
                    current_date bank_balance now in
       r_consecutive_months_above_nisab out.2
       = apply_override (year_progress_override self)
           (replay_streak (balance_history out.1)))
  ∧ (let out := check_hijri_year_threshold (test_monitor marker_history)
                  20000%float 16000%float (test_date 14 "17.01.2025")
                  20000%float "2025-01-17T08:30:00" in
     length marker_history = 14%nat
     ∧ r_consecutive_months_above_nisab out.2 = 2
     ∧ r_zakat_due out.2 = false).
Proof.
  split; [|split].
  - intros history. split; [apply sorted_by_timestamp_perm|].
    split; [apply sorted_by_timestamp_sorted|].
    split; [intros t; apply sorted_by_timestamp_stable|].
    apply replay_streak_suffix.
  - done.
  - by vm_compute.
Qed.

(** C5. After the append-then-evict step the ledger holds at most 24
    entries, payment markers and observations alike: it is the tail of the
    deduplicated ledger with the new observation appended, of length 24
    when that list is longer than 24 and the whole list otherwise.
    Observations of pairwise distinct dates recorded from an empty ledger
    leave the last 24 of them; thirty of them, and thirty monthly runs of
    the engine, leave exactly the observations of the last 24 runs, in
    order. *)
Theorem C5_ledger_capped_at_24_most_recent :
  (∀ history current_entry,
     let appended := dedup_append history current_entry in
     let kept := updated_history history current_entry in
     (length kept ≤ 24)%nat
     ∧ length kept = (24 `min` length appended)%nat
     ∧ (∃ evicted, appended = evicted ++ kept)
     ∧ ((length appended ≤ 24)%nat → kept = appended)
     ∧ ((24 < length appended)%nat →
          length kept = 24%nat ∧ kept = drop (length appended - 24) appended))
  ∧ (∀ self total_assets nisab current_date bank_balance now,
       (check_hijri_year_threshold self total_assets nisab current_date
          bank_balance now).1
       = set_balance_history self
           (updated_history (balance_history self)
              (make_current_entry total_assets nisab current_date now)))
  ∧ (∀ obs, NoDup (gregorian_date <$> obs) →
       record_observations [] obs = py_last_n 24 (Observation <$> obs)
       ∧ (length obs = 30%nat →
          record_observations [] obs = Observation <$> drop 6 obs))
  ∧ balance_history (run_months 30 (test_monitor []))
    = monthly_observation <$> (Z.of_nat <$> seq 6 24).
Proof.
  split; [|split; [|split]].
  - intros history current_entry appended kept.
    assert (Hlen : length kept = (24 `min` length appended)%nat)
      by apply py_last_n_length.
    split; [lia|]. split; [done|]. split.
    { eexists. apply py_last_n_split. }
    split; [apply py_last_n_short|]. intros Hlong. split; [lia|done].
  - done.
  - intros obs Hnd. rewrite (record_observations_distinct obs Hnd).
    split; [done|]. intros Hlen. unfold py_last_n, MAX_HISTORY_MONTHS.
    rewrite length_fmap, Hlen. by rewrite fmap_drop.
  - by vm_compute.
Qed.

(** C10. When no enabled override reaches the monitor (none is configured,
    or the configured one is disabled), the reported
    consecutive_months_above_nisab is the replayed streak and lies between 0
    and 24, whatever the ledger held before the run. *)
Theorem C10_streak_bounded_by_history_cap
    (configured : option year_progress_override_cfg) (self : ZakatMonitor)
    (total_assets nisab : float) (current_date : current_date_t)
    (bank_balance : float) (now : string) :
  adapter_override configured = None →
  let out := check_hijri_year_threshold (adapter_set_override configured self)
               total_assets nisab current_date bank_balance now in
  r_consecutive_months_above_nisab out.2
  = replay_streak (balance_history out.1)
  ∧ 0 ≤ r_consecutive_months_above_nisab out.2 ≤ 24.
Proof.
  intros Hnone out.
  rewrite (check_consecutive_months _ _ _ _ _ _ : r_consecutive_months_above_nisab out.2 = _).
  rewrite (check_balance_history _ _ _ _ _ _ : balance_history out.1 = _).
  cbn [adapter_set_override year_progress_override balance_history].
  rewrite Hnone. cbn [apply_override]. split; [done|].
  unfold replay_streak. split; [apply streak_loop_ge|].
  etransitivity; [apply streak_loop_le_length|].
  rewrite length_reverse, sorted_by_timestamp_length.
  pose proof (updated_history_length (balance_history self)
    (make_current_entry total_assets nisab current_date now)) as Hcap.
  unfold MAX_HISTORY_MONTHS in Hcap. lia.
Qed.

(** The theorem at a monitor that has run thirty months, with a configured
    but disabled override. *)
Lemma C10_streak_bounded_witness :
  let disabled := {| enabled := false; months_above_nisab := 8;
                     as_of_hijri_date := "01/01/1446" |} in
  adapter_override (Some disabled) = None ∧
  let out := check_hijri_year_threshold
               (adapter_set_override (Some disabled)
                  (run_months 30 (test_monitor [])))
               20000%float 16000%float (monthly_date 30) 20000%float
               (monthly_instant 30) in
  r_consecutive_months_above_nisab out.2
  = replay_streak (balance_history out.1)
  ∧ 0 ≤ r_consecutive_months_above_nisab out.2 ≤ 24.
Proof.
  intros disabled. split; [reflexivity|].
  apply (C10_streak_bounded_by_history_cap (Some disabled)). reflexivity.
Defined.

(** C3. An override reaches the monitor exactly when it is configured and
    enabled. With such an override and a replayed streak above zero, the
    effective streak is months_above_nisab + max(0, streak - 1) when that is
    greater than the replayed streak, and the replayed streak otherwise. A
    replayed streak of zero is reported as zero whatever the override. The
    value the engine reports is obtained in this way from the streak of the
    updated ledger. With 8 months configured, a streak of 3 gives 10, and a
    run whose observation is below the nisab reports 0. *)
Theorem C3_override_boosts_only_nonzero_streaks :
  (∀ ov, adapter_override (Some ov) = if enabled ov then Some ov else None)
  ∧ (∀ ov streak,
       0 < streak →
       let effective := months_above_nisab ov + Z.max 0 (streak - 1) in
       apply_override (Some ov) streak
       = if decide (streak < effective) then effective else streak)
  ∧ (∀ override, apply_override override 0 = 0)
  ∧ (∀ configured self total_assets nisab current_date bank_balance now,
       let out := check_hijri_year_threshold
                    (adapter_set_override configured self) total_assets nisab
                    current_date bank_balance now in
       r_consecutive_months_above_nisab out.2
       = apply_override (adapter_override configured)
           (replay_streak (balance_history out.1)))
  ∧ apply_override (adapter_override (Some override_8)) 3 = 10
  ∧ (let self := adapter_set_override (Some override_8)
                   (test_monitor (test_entries 2 true)) in
     let out := check_hijri_year_threshold self 20000%float 16000%float
                  (test_date 3 "03.01.2025") 20000%float
                  "2025-01-03T08:30:00" in
     replay_streak (balance_history out.1) = 3
     ∧ r_consecutive_months_above_nisab out.2 = 10)
  ∧ (let self := adapter_set_override (Some override_8)
                   (test_monitor (test_entries 3 true)) in
     let out := check_hijri_year_threshold self 5000%float 16000%float
                  (test_date 4 "04.01.2025") 5000%float
                  "2025-01-04T08:30:00" in
     r_above_nisab out.2 = false
     ∧ replay_streak (balance_history out.1) = 0
     ∧ r_consecutive_months_above_nisab out.2 = 0).
Proof.
  split; [done|]. split; [|split; [|split; [done|by vm_compute]]].
  - intros ov streak Hpos effective. subst effective. cbn [apply_override].
    destruct (Z.ltb_spec 0 streak); [|lia].
    destruct (Z.ltb_spec streak (months_above_nisab ov + 0 `max` (streak - 1)));
      case_decide; done || lia.
  - by intros [ov|].
Qed.

(** The comparison [total_assets >= nisab_threshold] holds when the two
    amounts are equal. *)
Lemma float_ge_of_eqb (total_assets nisab : float) :
  PrimFloat.eqb nisab total_assets = true → float_ge total_assets nisab = true.
Proof.
  unfold float_ge. rewrite FloatAxioms.eqb_spec, FloatAxioms.leb_spec.
  unfold SFeqb, SFleb. by destruct (SFcompare _ _) as [[]|].
Qed.

(** C4. In the verdict of every run, above_nisab is the comparison
    total_assets >= nisab_threshold (true when the two are equal),
    hijri_year_complete is true exactly when the final streak is at least
    12, zakat_due equals hijri_year_complete, and zakat_amount is
    total_assets * 0.025 when hijri_year_complete holds and 0 otherwise. A
    twelfth consecutive month above the nisab completes the year. *)
Theorem C4_verdict_fields :
  (∀ self total_assets nisab current_date bank_balance now,
     let r := (check_hijri_year_threshold self total_assets nisab
                 current_date bank_balance now).2 in
     r_above_nisab r = PrimFloat.leb nisab total_assets
     ∧ (PrimFloat.eqb nisab total_assets = true → r_above_nisab r = true)
     ∧ (r_hijri_year_complete r = true
        ↔ 12 ≤ r_consecutive_months_above_nisab r)
     ∧ r_zakat_due r = r_hijri_year_complete r
     ∧ r_zakat_amount r
       = (if r_hijri_year_complete r
          then PrimFloat.mul total_assets ZAKAT_RATE else 0%float)
     ∧ r_total_assets r = total_assets
     ∧ r_nisab_threshold r = nisab)
  ∧ (let r := (check_hijri_year_threshold
                 (test_monitor (test_entries 11 true)) 20000%float
                 16000%float (test_date 12 "12.01.2025") 20000%float
                 "2025-01-12T08:30:00").2 in
     r_consecutive_months_above_nisab r = 12
     ∧ r_hijri_year_complete r = true
     ∧ r_zakat_due r = true
     ∧ r_zakat_amount r = PrimFloat.mul 20000%float ZAKAT_RATE)
  ∧ (let r := (check_hijri_year_threshold (test_monitor []) 16000%float
                 16000%float (test_date 1 "01.01.2025") 16000%float
                 "2025-01-01T08:30:00").2 in
     r_above_nisab r = true ∧ r_zakat_due r = false
     ∧ r_zakat_amount r = 0%float).
Proof.
  split; [|by vm_compute].
  intros self total_assets nisab current_date bank_balance now r.
  subst r. cbn [check_hijri_year_threshold snd r_above_nisab
    r_hijri_year_complete r_zakat_due r_zakat_amount
    r_consecutive_months_above_nisab r_total_assets r_nisab_threshold].
  repeat split; try apply float_ge_of_eqb.
  - intros H%Z.leb_le. exact H.
  - intros H. apply Z.leb_le. exact H.
Qed.

(** ** Deduplication *)






(** ** Storage *)

Lemma reference_libraries_spec : LibrariesSpec Reference.libraries.
Proof.
  split; [done|done|]. intros k r m. cbn. by rewrite decide_True.
Qed.

Section StorageProperties.
Context {L : Libraries}.

Lemma load_history_missing key : load_history key None = Ok [].
Proof. reflexivity. Qed.

Lemma load_history_invalid_token key f :
  fernet_decrypt key (content f) = None →
  load_history key (Some f) = Raise (ValueError decrypt_error_message).
Proof. intros H. cbn. by rewrite H. Qed.

Lemma load_history_save_history `{!LibrariesSpec L} key r history fs :
  load_history key (save_history key r history fs).2 = Ok history.
Proof.
  cbn. rewrite fernet_decrypt_encrypt, decode_encode_utf8.
  by rewrite json_loads_dumps.
Qed.

End StorageProperties.

(** C7. Under the contracts of the JSON, UTF-8 and Fernet libraries, for
    every sequence of ledger entries (empty, or mixing observations and
    payment markers), whatever the store held before, and whatever time
    stamp and initialisation vector the encryption draws: [save_history]
    returns [True] and a following [load_history] with the same key returns
    the saved sequence; saving the sequence a second time and loading
    returns it as well. *)
Theorem C7_save_then_load_is_identity (L : Libraries) (H : LibrariesSpec L)
    (key : fernet_key) (r r' : entropy) (history : list entry)
    (fs : option history_file) :
  (save_history key r history fs).1 = true
  ∧ load_history key (save_history key r history fs).2 = Ok history
  ∧ load_history key
      (save_history key r' history (save_history key r history fs).2).2
    = Ok history.
Proof.
  split; [done|]. split; apply load_history_save_history.
Qed.

(** The theorem at the reference libraries, for a ledger with both kinds
    of entries and a store that does not exist yet. *)
Lemma C7_save_then_load_witness :
  LibrariesSpec Reference.libraries ∧
  let L := Reference.libraries in
  let history := [test_entry 0 true; january_15_marker; test_entry 1 false] in
  (save_history "k" () history None).1 = true
  ∧ load_history "k" (save_history "k" () history None).2 = Ok history
  ∧ load_history "k"
      (save_history "k" () history (save_history "k" () history None).2).2
    = Ok history.
Proof.
  split; [exact reference_libraries_spec|].
  exact (C7_save_then_load_is_identity Reference.libraries
           reference_libraries_spec "k" () ()
           [test_entry 0 true; january_15_marker; test_entry 1 false] None).
Defined.




(** The reference calendar agrees with the expectations of
    [TestValidateDateFormat] (tests/test_core_logic.py). *)
Lemma validate_date_format_tests :
  let L := Reference.libraries in
  _validate_date_format "31.01.2025" = true
  ∧ _validate_date_format "2025-01-31" = false
  ∧ _validate_date_format "" = false
  ∧ _validate_date_format "32.13.2025" = false
  ∧ _validate_date_format "29.02.2024" = true
  ∧ _validate_date_format "29.02.2023" = false.
Proof. by vm_compute. Qed.

(** The payment of [test_backdated_payment]: the marker carries the given
    date and the timestamp of its midnight. *)
Lemma record_zakat_payment_backdated :
  let L := Reference.libraries in
  let now := {| now_isoformat := "2025-03-01T10:00:00.000000";
                now_strftime_dmy := "01.03.2025" |} in
  let out := record_zakat_payment "k" () now (test_monitor [])
               (Some "15.01.2025") None in
  balance_history out.1.1 = [ZakatPaid "2025-01-15T00:00:00" "15.01.2025"]
  ∧ _load_balance_history "k" out.1.2 = balance_history out.1.1
  ∧ out.2 = PaymentRecorded "15.01.2025".
Proof. by vm_compute. Qed.




(** ** The statement period *)

Section PeriodProperties.
Context {L : Libraries}.

(** Within one source the later of two parsable period ends is kept, by
    comparison of the parsed dates. *)
Lemma track_latest_period_parsed latest current latest_dt current_dt :
  latest ≠ "" → current ≠ "" →
  strptime_dmy latest = Some latest_dt →
  strptime_dmy current = Some current_dt →
  track_latest_period (Some latest) (Some current)
  = Some (if datetime_gt current_dt latest_dt then current else latest).
Proof.
  intros Hl Hc Hpl Hpc.
  destruct latest as [|a s]; [done|]. destruct current as [|b t]; [done|].
  unfold track_latest_period. rewrite Hpl, Hpc. by destruct (datetime_gt _ _).
Qed.

End PeriodProperties.

(** C8, on the code. For two sources (the program configures at most two)
    the merged period end is the greater of the two strings. On the failing
    input, the period ends 31.12.2025 and 01.01.2026: the second is the
    later calendar date, and the tracking inside one source keeps it, but
    the merge across sources answers 31.12.2025, in either order of the
    sources. *)
Theorem C8_merge_takes_greatest_string :
  (∀ today a b,
     period_end a ≠ "" → period_end b ≠ "" →
     snd <$> merge_all_sources today [a; b]
     = Some (if String.ltb (period_end a) (period_end b)
             then period_end b else period_end a))
  ∧ snd <$> merge_all_sources "04.02.2026" [personal_result; company_result]
    = Some "31.12.2025"
  ∧ snd <$> merge_all_sources "04.02.2026" [company_result; personal_result]
    = Some "31.12.2025"
  ∧ (∃ earlier later,
       Reference.strptime "31.12.2025" = Some earlier
       ∧ Reference.strptime "01.01.2026" = Some later
       ∧ Reference.date_gt later earlier = true)
  ∧ track_latest_period (L := Reference.libraries)
      (Some "31.12.2025") (Some "01.01.2026") = Some "01.01.2026".
Proof.
  split.
  { intros today a b Ha Hb. cbn.
    destruct (String.ltb (period_end a) (period_end b)).
    - by destruct (period_end b).
    - by destruct (period_end a). }
  split; [reflexivity|]. split; [reflexivity|]. split; [|reflexivity].
  do 2 eexists. split; [reflexivity|]. split; reflexivity.
Qed.

(** * Further properties *)

(** ** The order of timestamps is total *)

Lemma ltb_trans (s t u : string) :
  String.ltb s t = true → String.ltb t u = true → String.ltb s u = true.
Proof.
  unfold String.ltb. intros Hst Htu.
  destruct (String.compare s t) eqn:Est; try discriminate.
  destruct (String.compare t u) eqn:Etu; try discriminate.
  apply OrderedTypeEx.String_as_OT.cmp_lt in Est, Etu.
  pose proof (OrderedTypeEx.String_as_OT.lt_trans _ _ _ Est Etu) as Hsu.
  apply OrderedTypeEx.String_as_OT.cmp_lt in Hsu.
  unfold OrderedTypeEx.String_as_OT.cmp in Hsu. by rewrite Hsu.
Qed.

Lemma ltb_connex (s t : string) :
  String.ltb s t = false → s = t ∨ String.ltb t s = true.
Proof.
  unfold String.ltb. rewrite (String.compare_antisym t s).
  destruct (String.compare s t) eqn:E; simpl; try discriminate; intros _.
  - left. by apply String.compare_eq_iff.
  - by right.
Qed.

Lemma timestamp_le_trans : Transitive timestamp_le.
Proof.
  unfold timestamp_le. intros a b c Hab Hbc.
  destruct (String.ltb (entry_timestamp c) (entry_timestamp a)) eqn:Hca;
    [|done].
  destruct (ltb_connex _ _ Hab) as [Heq|Hlt].
  - rewrite Heq in Hbc. congruence.
  - pose proof (ltb_trans _ _ _ Hca Hlt). congruence.
Qed.

(** ** One more entry at the end of time *)

Lemma insert_by_timestamp_snoc a s x :
  timestamp_le a x →
  insert_by_timestamp a (s ++ [x]) = insert_by_timestamp a s ++ [x].
Proof.
  intros Hax. induction s as [|y s IH]; simpl.
  - unfold timestamp_le in Hax. by rewrite Hax.
  - destruct (String.ltb _ _); [by rewrite IH|done].
Qed.

Lemma sorted_by_timestamp_snoc l x :
  Forall (λ e, timestamp_le e x) l →
  sorted_by_timestamp (l ++ [x]) = sorted_by_timestamp l ++ [x].
Proof.
  induction 1 as [|a l Ha _ IH]; simpl; [done|].
  by rewrite IH, insert_by_timestamp_snoc.
Qed.

Lemma replay_streak_snoc l x :
  Forall (λ e, timestamp_le e x) l →
  replay_streak (l ++ [x])
  = if counts_above x then 1 + replay_streak l else 0.
Proof.
  intros Hl. unfold replay_streak.
  rewrite sorted_by_timestamp_snoc, reverse_snoc by done.
  cbn [streak_loop]. destruct (counts_above x) eqn:Hx.
  - rewrite (counts_above_not_paid x Hx). apply streak_loop_acc.
  - by destruct (is_zakat_paid x).
Qed.

(** The updated ledger is the new observation behind the last 23 of the
    entries of other dates. *)
Lemma updated_history_snoc history current_entry :
  updated_history history current_entry
  = py_last_n 23
      (filter (λ e, entry_gregorian_date e ≠ gregorian_date current_entry)
         history)
      ++ [Observation current_entry].
Proof.
  unfold updated_history, dedup_append, py_last_n, MAX_HISTORY_MONTHS.
  rewrite length_app. cbn [length].
  rewrite drop_app_le by lia. do 2 f_equal. lia.
Qed.

Lemma Forall_py_last_n {A} (P : A → Prop) n (l : list A) :
  Forall P l → Forall P (py_last_n n l).
Proof. apply Forall_drop. Qed.

Lemma Forall_filter_keep {A} (P Q : A → Prop) `{!∀ x, Decision (Q x)}
    (l : list A) :
  Forall P l → Forall P (filter Q l).
Proof.
  intros Hl. apply Forall_forall. intros x [_ Hx]%list_elem_of_filter.
  by apply (proj1 (Forall_forall P l) Hl).
Qed.

(** X1. A run whose instant is not earlier than any timestamp of the ledger
    leaves the new observation behind the last 23 entries of other dates,
    and its replayed streak is one more than the streak of those entries
    when the assets reach the nisab, and zero when they do not. *)
Theorem latest_observation_extends_or_resets_streak (self : ZakatMonitor)
    (total_assets nisab : float) (current_date : current_date_t)
    (bank_balance : float) (now : string) :
  Forall (λ e, String.ltb now (entry_timestamp e) = false)
    (balance_history self) →
  let out := check_hijri_year_threshold self total_assets nisab current_date
               bank_balance now in
  let earlier :=
    py_last_n 23
      (filter (λ e, entry_gregorian_date e ≠ cd_gregorian_date current_date)
         (balance_history self)) in
  balance_history out.1
  = earlier
      ++ [Observation (make_current_entry total_assets nisab current_date now)]
  ∧ replay_streak (balance_history out.1)
    = if PrimFloat.leb nisab total_assets then 1 + replay_streak earlier
      else 0.
Proof.
  intros Hnow out earlier. subst out.
  rewrite check_balance_history, updated_history_snoc.
  split; [done|]. rewrite replay_streak_snoc; [done|].
  apply Forall_py_last_n, Forall_filter_keep. exact Hnow.
Qed.

(** The gap of [test_gap_resets_consecutive_count]: five months above, one
    below, then the current month above. *)
Lemma latest_observation_witness :
  let self := test_monitor (test_entries 5 true ++ [test_entry 5 false]) in
  let now := "2025-01-07T08:30:00" in
  let out := check_hijri_year_threshold self 20000%float 16000%float
               (test_date 7 "07.01.2025") 20000%float now in
  Forall (λ e, String.ltb now (entry_timestamp e) = false)
    (balance_history self)
  ∧ replay_streak (balance_history out.1) = 1.
Proof.
  intros self now out.
  assert (Hnow : Forall (λ e, String.ltb now (entry_timestamp e) = false)
                   (balance_history self)).
  { repeat (constructor; [reflexivity|]). constructor. }
  split; [exact Hnow|].
  exact (proj2 (latest_observation_extends_or_resets_streak self 20000%float
                  16000%float (test_date 7 "07.01.2025") 20000%float now
                  Hnow)).
Defined.

Lemma sorted_by_timestamp_id l :
  Sorted timestamp_le l → sorted_by_timestamp l = l.
Proof.
  induction 1 as [|a l _ IH Ha]; simpl; [done|]. rewrite IH.
  destruct Ha as [|y l Hay]; simpl; [done|].
  unfold timestamp_le in Hay. by rewrite Hay.
Qed.

Lemma streak_loop_all l :
  Forall (λ e, counts_above e = true) l →
  streak_loop 0 l = Z.of_nat (length l).
Proof.
  induction 1 as [|e l He _ IH]; cbn [streak_loop length]; [done|].
  rewrite (counts_above_not_paid e He), He, streak_loop_acc, IH. lia.
Qed.

Lemma Sorted_drop {A} (R : relation A) n (l : list A) :
  Sorted R l → Sorted R (drop n l).
Proof.
  revert l. induction n as [|n IH]; intros l Hl; [by rewrite drop_0|].
  destruct l as [|x l]; [done|]. apply IH. by inversion Hl.
Qed.

Lemma Sorted_observations obs :
  Sorted observation_le obs → Sorted timestamp_le (Observation <$> obs).
Proof.
  induction 1 as [|o obs _ IH Ho]; simpl; constructor; [done|].
  destruct Ho; simpl; by constructor.
Qed.

(** X2. Observations of pairwise distinct dates, all above the nisab and
    recorded in the order of their timestamps from an empty ledger, give a
    replayed streak equal to their number, up to the cap of 24. *)
Theorem all_above_streak_counts_observations (obs : list observation) :
  NoDup (gregorian_date <$> obs) →
  Sorted observation_le obs →
  Forall (λ o, above_nisab o = true) obs →
  replay_streak (record_observations [] obs)
  = Z.of_nat (length obs `min` 24).
Proof.
  intros Hdates Hsorted Habove.
  rewrite (record_observations_distinct obs Hdates).
  unfold py_last_n, MAX_HISTORY_MONTHS, replay_streak.
  rewrite <- fmap_drop, length_fmap.
  rewrite sorted_by_timestamp_id
    by (apply Sorted_observations, Sorted_drop, Hsorted).
  rewrite streak_loop_all.
  - rewrite length_reverse, length_fmap, length_drop. lia.
  - apply Forall_reverse, Forall_fmap, Forall_drop.
    apply (Forall_impl _ _ _ Habove). by intros o Ho.
Qed.

Lemma all_above_streak_witness :
  let obs := [test_observation 0 true; test_observation 1 true;
              test_observation 2 true] in
  NoDup (gregorian_date <$> obs)
  ∧ Sorted observation_le obs
  ∧ Forall (λ o, above_nisab o = true) obs
  ∧ replay_streak (record_observations [] obs) = 3.
Proof.
  intros obs.
  assert (Hdates : NoDup (gregorian_date <$> obs)).
  { apply (bool_decide_unpack _). by vm_compute. }
  assert (Hsorted : Sorted observation_le obs).
  { repeat (constructor; [|by repeat constructor]). constructor. }
  assert (Habove : Forall (λ o, above_nisab o = true) obs).
  { by repeat constructor. }
  split; [exact Hdates|]. split; [exact Hsorted|]. split; [exact Habove|].
  exact (all_above_streak_counts_observations obs Hdates Hsorted Habove).
Defined.

(** X3. Two runs for the same gregorian_date leave the ledger that the
    second run alone would have left: the first observation is replaced, and
    nothing else is lost to it. *)
Theorem reobservation_replaces (history : list entry) (o o' : observation) :
  gregorian_date o = gregorian_date o' →
  updated_history (updated_history history o) o' = updated_history history o'.
Proof.
  intros Hd. rewrite (updated_history_snoc _ o'), (updated_history_snoc _ o).
  rewrite (updated_history_snoc history o'), <- Hd.
  set (P := py_last_n 23
              (filter (λ e, entry_gregorian_date e ≠ gregorian_date o) history)).
  rewrite filter_app, filter_cons_False, filter_nil, app_nil_r
    by (intros H; by apply H).
  rewrite (filter_all _ P).
  - rewrite py_last_n_short; [done|].
    subst P. rewrite py_last_n_length. lia.
  - subst P. apply Forall_py_last_n, Forall_forall.
    by intros e [He _]%list_elem_of_filter.
Qed.

Lemma reobservation_replaces_witness :
  let o := make_current_entry 5000%float 16000%float
             (test_date 7 "15.01.2025") "2025-01-20T08:30:00" in
  let history := [test_entry 0 true; test_entry 1 true] in
  gregorian_date o = gregorian_date january_15_observation
  ∧ updated_history (updated_history history o) january_15_observation
    = updated_history history january_15_observation.
Proof.
  intros o history. split; [reflexivity|].
  exact (reobservation_replaces history o january_15_observation eq_refl).
Defined.

Lemma replay_streak_nonneg history : 0 ≤ replay_streak history.
Proof. apply streak_loop_ge. Qed.

Lemma apply_override_closed_form ov streak :
  0 ≤ streak →
  apply_override (Some ov) streak
  = if decide (1 ≤ streak) then streak + Z.max 0 (months_above_nisab ov - 1)
    else 0.
Proof.
  intros Hs. cbn [apply_override].
  destruct (Z.ltb_spec 0 streak); case_decide; try lia.
  destruct (Z.ltb_spec streak (months_above_nisab ov + 0 `max` (streak - 1)));
    lia.
Qed.

(** X4. With an override in force the reported streak is the replayed
    streak plus months_above_nisab - 1 (when that is positive) as soon as the
    replayed streak is at least 1, and zakat falls due exactly when the
    replayed streak is at least 1 and reaches 12 less that credit; with no
    override it falls due exactly when the replayed streak reaches 12. *)
Theorem zakat_due_threshold_with_override :
  ∀ self total_assets nisab current_date bank_balance now,
    let out := check_hijri_year_threshold self total_assets nisab current_date
                 bank_balance now in
    let streak := replay_streak (balance_history out.1) in
    0 ≤ streak
    ∧ r_consecutive_months_above_nisab out.2
      = match year_progress_override self with
        | Some ov =>
            if decide (1 ≤ streak)
            then streak + Z.max 0 (months_above_nisab ov - 1) else 0
        | None => streak
        end
    ∧ (r_zakat_due out.2 = true
       ↔ match year_progress_override self with
         | Some ov =>
             1 ≤ streak ∧ 12 - Z.max 0 (months_above_nisab ov - 1) ≤ streak
         | None => 12 ≤ streak
         end).
Proof.
  intros self total_assets nisab current_date bank_balance now out streak.
  pose proof (replay_streak_nonneg (balance_history out.1)) as Hs.
  fold streak in Hs. split; [done|].
  assert (Hc : r_consecutive_months_above_nisab out.2
               = apply_override (year_progress_override self) streak)
    by reflexivity.
  assert (Hd : r_zakat_due out.2
               = (12 <=? r_consecutive_months_above_nisab out.2))
    by reflexivity.
  rewrite Hd, Hc, Z.leb_le. clear Hc Hd.
  destruct (year_progress_override self) as [ov|]; [|done].
  rewrite (apply_override_closed_form ov streak Hs).
  case_decide; split; try done; lia.
Qed.

Lemma timestamps_determine_entry (l : list entry) (a b : entry) :
  NoDup (entry_timestamp <$> l) → a ∈ l → b ∈ l →
  entry_timestamp a = entry_timestamp b → a = b.
Proof.
  induction l as [|x l IH]; intros Hnd Ha Hb Hts; [by inversion Ha|].
  cbn in Hnd. apply NoDup_cons in Hnd as [Hx Hnd].
  apply elem_of_cons in Ha as [->|Ha]; apply elem_of_cons in Hb as [->|Hb].
  - done.
  - destruct Hx. rewrite Hts. by apply list_elem_of_fmap_2.
  - destruct Hx. rewrite <- Hts. by apply list_elem_of_fmap_2.
  - by apply IH.
Qed.

(** X5. When the timestamps of a ledger are pairwise distinct, the sorted
    ledger and the replayed streak depend on the entries only, not on the
    order in which they were appended: a payment recorded late for an
    earlier day counts at its day. *)
Theorem streak_independent_of_append_order (l l' : list entry) :
  l ≡ₚ l' →
  NoDup (entry_timestamp <$> l) →
  sorted_by_timestamp l = sorted_by_timestamp l'
  ∧ replay_streak l = replay_streak l'.
Proof.
  intros Hperm Hnd.
  assert (Hsorted : sorted_by_timestamp l = sorted_by_timestamp l').
  { pose proof timestamp_le_trans.
    apply (Sorted_unique_strong timestamp_le).
    - intros a b Ha Hb Hab Hba.
      rewrite sorted_by_timestamp_perm in Ha.
      rewrite sorted_by_timestamp_perm, <- Hperm in Hb.
      apply (timestamps_determine_entry l a b Hnd Ha Hb).
      unfold timestamp_le in Hab, Hba.
      destruct (ltb_connex _ _ Hab) as [Heq|Hlt]; [done|congruence].
    - apply sorted_by_timestamp_sorted.
    - apply sorted_by_timestamp_sorted.
    - by rewrite !sorted_by_timestamp_perm. }
  split; [done|]. unfold replay_streak. by rewrite Hsorted.
Qed.

(** A payment for 3 January recorded after the observation of 5 January, or
    before it. *)
Lemma streak_independent_witness :
  let marker := ZakatPaid "2025-01-03T00:00:00" "03.01.2025" in
  let l := [test_entry 0 true; test_entry 4 true; marker] in
  let l' := [test_entry 0 true; marker; test_entry 4 true] in
  l ≡ₚ l'
  ∧ NoDup (entry_timestamp <$> l)
  ∧ sorted_by_timestamp l = sorted_by_timestamp l'
  ∧ replay_streak l = replay_streak l'
  ∧ replay_streak l = 1.
Proof.
  intros marker l l'.
  assert (Hperm : l ≡ₚ l') by (apply perm_skip, perm_swap).
  assert (Hnd : NoDup (entry_timestamp <$> l)).
  { apply (bool_decide_unpack _). by vm_compute. }
  split; [exact Hperm|]. split; [exact Hnd|].
  split; [|split; [|reflexivity]].
  - exact (proj1 (streak_independent_of_append_order l l' Hperm Hnd)).
  - exact (proj2 (streak_independent_of_append_order l l' Hperm Hnd)).
Defined.

(** ** The other methods of HistoryStorage *)

(** X6. [append_entry] on a store that loads adds exactly the new entry
    behind the stored ones and returns [True]; on a store that does not load
    it raises the error of [load_history] and leaves the file as it was. *)
Theorem append_entry_extends_or_refuses (L : Libraries) (H : LibrariesSpec L)
    (key : fernet_key) (r : entropy) (e : entry)
    (fs : option history_file) :
  match load_history key fs with
  | Ok history =>
      (append_entry key r e fs).1 = Ok true
      ∧ load_history key (append_entry key r e fs).2 = Ok (history ++ [e])
  | Raise err => append_entry key r e fs = (Raise err, fs)
  end.
Proof.
  unfold append_entry. destruct (load_history key fs) as [history|err];
    [|done].
  split; [done|]. apply load_history_save_history.
Qed.

(** The two appends of [test_append_entry], and an append to a store
    written under another key. *)
Lemma append_entry_witness :
  LibrariesSpec Reference.libraries ∧
  let L := Reference.libraries in
  let fs1 := (append_entry "k" () (test_entry 0 true) None).2 in
  let fs2 := (append_entry "k" () january_15_marker fs1).2 in
  load_history "k" fs1 = Ok [test_entry 0 true]
  ∧ load_history "k" fs2 = Ok [test_entry 0 true; january_15_marker]
  ∧ append_entry "other" () (test_entry 1 true) fs2
    = (Raise (ValueError decrypt_error_message), fs2).
Proof.
  split; [exact reference_libraries_spec|]. intros L fs1 fs2.
  split; [|split].
  - exact (proj2 (append_entry_extends_or_refuses Reference.libraries
                    reference_libraries_spec "k" () (test_entry 0 true) None)).
  - exact (proj2 (append_entry_extends_or_refuses Reference.libraries
                    reference_libraries_spec "k" () january_15_marker fs1)).
  - exact (append_entry_extends_or_refuses Reference.libraries
             reference_libraries_spec "other" () (test_entry 1 true) fs2).
Defined.

Lemma py_slice_from_neg {A} (n : nat) (l : list A) :
  (0 < n)%nat → py_slice_from (- Z.of_nat n) l = py_last_n n l.
Proof.
  intros Hn. unfold py_slice_from, py_last_n.
  destruct (Z.ltb_spec (- Z.of_nat n) 0); [|lia]. f_equal. lia.
Qed.

(** X7. [get_recent_entries count] on a store that loads: for a positive
    count it returns the last [count] entries, all of them when there are
    fewer; for a count of zero it returns the whole history, not the empty
    list; for a negative count it drops that many of the oldest entries. An
    error of [load_history] is passed on. *)
Theorem get_recent_entries_cases (L : Libraries) (key : fernet_key)
    (count : Z) (fs : option history_file) :
  match load_history key fs with
  | Ok history =>
      get_recent_entries key count fs
      = Ok (if decide (0 < count) then py_last_n (Z.to_nat count) history
            else if decide (count = 0) then history
            else drop (Z.to_nat (- count)) history)
      ∧ (0 < count → ∀ recent, get_recent_entries key count fs = Ok recent →
           length recent = (Z.to_nat count `min` length history)%nat
           ∧ recent `suffix_of` history)
  | Raise err => get_recent_entries key count fs = Raise err
  end.
Proof.
  unfold get_recent_entries.
  destruct (load_history key fs) as [history|err]; [|done].
  assert (Hcases :
    (if count <? Z.of_nat (length history)
     then py_slice_from (- count) history else history)
    = (if decide (0 < count) then py_last_n (Z.to_nat count) history
       else if decide (count = 0) then history
       else drop (Z.to_nat (- count)) history)).
  { destruct (Z.ltb_spec count (Z.of_nat (length history))) as [Hlt|Hge].
    - case_decide as Hpos.
      + rewrite <- (Z2Nat.id count) at 1 by lia.
        apply py_slice_from_neg. lia.
      + case_decide as Hzero; [by subst|].
        unfold py_slice_from. destruct (Z.ltb_spec (- count) 0); [lia|done].
    - case_decide as Hpos.
      + symmetry. apply py_last_n_short. lia.
      + by rewrite decide_True by lia. }
  rewrite Hcases. split; [done|].
  intros Hpos recent [= <-]. rewrite decide_True by done.
  split; [apply py_last_n_length|]. apply suffix_drop.
Qed.

(** X8. Clearing and deleting both make the history load as empty, in
    different ways. After [clear_history] the store still exists, counts no
    entry, and is still sealed: a key that does not open it gets the
    decryption error. After [delete_history] the store is gone and every key
    loads the empty list; [delete_history] answers whether there was a
    store, so a second call answers [False]. *)
Theorem clear_keeps_store_delete_removes_it (L : Libraries)
    (H : LibrariesSpec L) (key : fernet_key) (r : entropy)
    (fs : option history_file) :
  let cleared := (clear_history key r fs).2 in
  let deleted := (delete_history fs).2 in
  (load_history key cleared = Ok []
   ∧ get_entry_count key cleared = Ok 0%nat
   ∧ history_exists cleared = true
   ∧ ∀ other f, cleared = Some f → fernet_decrypt other (content f) = None →
       load_history other cleared = Raise (ValueError decrypt_error_message))
  ∧ ((delete_history fs).1 = history_exists fs
     ∧ history_exists deleted = false
     ∧ (delete_history deleted).1 = false
     ∧ ∀ other, load_history other deleted = Ok []
                ∧ get_entry_count other deleted = Ok 0%nat).
Proof.
  intros cleared deleted.
  assert (Hload : load_history key cleared = Ok [])
    by apply load_history_save_history.
  split.
  - split; [done|]. split; [|split; [done|]].
    + unfold get_entry_count. by rewrite Hload.
    + intros other f [= <-] Hbad. by apply load_history_invalid_token.
  - assert (Hdel : deleted = None) by (subst deleted; by destruct fs).
    rewrite Hdel. split; [by destruct fs|]. done.
Qed.

Lemma clear_delete_witness :
  LibrariesSpec Reference.libraries ∧
  let L := Reference.libraries in
  let fs := (save_history "k" () [test_entry 0 true] None).2 in
  let cleared := (clear_history "k" () fs).2 in
  let deleted := (delete_history fs).2 in
  (load_history "k" cleared = Ok []
   ∧ get_entry_count "k" cleared = Ok 0%nat
   ∧ history_exists cleared = true
   ∧ ∀ other f, cleared = Some f → fernet_decrypt other (content f) = None →
       load_history other cleared = Raise (ValueError decrypt_error_message))
  ∧ ((delete_history fs).1 = history_exists fs
     ∧ history_exists deleted = false
     ∧ (delete_history deleted).1 = false
     ∧ ∀ other, load_history other deleted = Ok []
                ∧ get_entry_count other deleted = Ok 0%nat).
Proof.
  split; [exact reference_libraries_spec|].
  exact (clear_keeps_store_delete_removes_it Reference.libraries
           reference_libraries_spec "k" ()
           (save_history (L := Reference.libraries) "k" ()
              [test_entry 0 true] None).2).
Defined.

(** ** The payment recorder *)

Section PaymentProperties.
Context {L : Libraries} `{!LibrariesSpec L}.

Lemma load_after_save_balance_history key r self fs :
  _load_balance_history key (_save_balance_history key r self fs)
  = balance_history self.
Proof.
  cbn. rewrite fernet_decrypt_encrypt, decode_encode_utf8.
  by rewrite json_loads_dumps.
Qed.

Lemma record_zakat_payment_today key r now self fs :
  record_zakat_payment key r now self None fs
  = (let marker := ZakatPaid (now_isoformat now) (now_strftime_dmy now) in
     let self' := set_balance_history self
                    (_load_balance_history key fs ++ [marker]) in
     (self', _save_balance_history key r self' fs,
      PaymentRecorded (now_strftime_dmy now))).
Proof. reflexivity. Qed.

Lemma record_zakat_payment_dated key r now self d dt fs :
  d ≠ "" → strptime_dmy d = Some dt →
  record_zakat_payment key r now self (Some d) fs
  = (let marker := ZakatPaid (isoformat dt) d in
     let self' := set_balance_history self
                    (_load_balance_history key fs ++ [marker]) in
     (self', _save_balance_history key r self' fs, PaymentRecorded d)).
Proof.
  intros Hd Hdt. destruct d as [|c d]; [done|].
  unfold record_zakat_payment. by rewrite Hdt.
Qed.

End PaymentProperties.

(** X9. A payment with an accepted date (none given, or one that [strptime]
    parses) appends one marker to the ledger as the store holds it, not as
    the monitor remembers it, and writes that ledger back: the monitor and
    the store then agree on the stored entries followed by the marker. The
    marker is dated as given, at midnight, or today at the current instant.
    When no stored entry has a later timestamp than the marker, the
    replayed streak of the new ledger is zero. *)
Theorem payment_appends_marker_to_stored_ledger (L : Libraries)
    (H : LibrariesSpec L) (key : fernet_key) (r : entropy) (now : instant)
    (self : ZakatMonitor) (fs : option token) :
  let stored := _load_balance_history key fs in
  let recorded (out : ZakatMonitor * option token * payment_outcome)
        (ts date : string) :=
    balance_history out.1.1 = stored ++ [ZakatPaid ts date]
    ∧ _load_balance_history key out.1.2 = stored ++ [ZakatPaid ts date]
    ∧ out.2 = PaymentRecorded date
    ∧ year_progress_override out.1.1 = year_progress_override self
    ∧ (Forall (λ e, String.ltb ts (entry_timestamp e) = false) stored →
       replay_streak (balance_history out.1.1) = 0) in
  recorded (record_zakat_payment key r now self None fs)
    (now_isoformat now) (now_strftime_dmy now)
  ∧ ∀ d dt, d ≠ "" → strptime_dmy d = Some dt →
      recorded (record_zakat_payment key r now self (Some d) fs)
        (isoformat dt) d.
Proof.
  intros stored recorded.
  assert (Hrec : ∀ ts date,
    recorded
      (let marker := ZakatPaid ts date in
       let self' := set_balance_history self (stored ++ [marker]) in
       (self', _save_balance_history key r self' fs, PaymentRecorded date))
      ts date).
  { intros ts date. subst recorded. cbn zeta. cbn [fst snd].
    rewrite load_after_save_balance_history. cbn [set_balance_history
      balance_history year_progress_override].
    repeat split. intros Hts. by rewrite replay_streak_snoc. }
  split.
  - rewrite record_zakat_payment_today. apply Hrec.
  - intros d dt Hd Hdt. rewrite (record_zakat_payment_dated _ _ _ _ d dt) by done.
    apply Hrec.
Qed.

(** The payment of [test_backdated_payment] against a store that holds two
    observations of early January. *)
Lemma payment_appends_marker_witness :
  LibrariesSpec Reference.libraries ∧
  let L := Reference.libraries in
  let now := {| now_isoformat := "2025-03-01T10:00:00.000000";
                now_strftime_dmy := "01.03.2025" |} in
  let stored := [test_entry 0 true; test_entry 1 true] in
  let fs := _save_balance_history "k" () (test_monitor stored) None in
  let out := record_zakat_payment "k" () now (test_monitor [])
               (Some "15.01.2025") fs in
  balance_history out.1.1
  = stored ++ [ZakatPaid "2025-01-15T00:00:00" "15.01.2025"]
  ∧ _load_balance_history "k" out.1.2 = balance_history out.1.1
  ∧ replay_streak (balance_history out.1.1) = 0.
Proof.
  split; [exact reference_libraries_spec|]. intros L now stored fs out.
  destruct (proj2 (payment_appends_marker_to_stored_ledger
                     Reference.libraries reference_libraries_spec "k" () now
                     (test_monitor []) fs)
              "15.01.2025" _ ltac:(discriminate) eq_refl)
    as (Hmem & Hstore & _ & _ & Hreset).
  split; [exact Hmem|]. split; [exact (eq_trans Hstore (eq_sym Hmem))|].
  apply Hreset. repeat (constructor; [reflexivity|]). constructor.
Defined.

(** X10. A payment recorded over a store that the key cannot decrypt does
    not fail: the loader answers the empty ledger, so the monitor's ledger
    becomes the marker alone, whatever it held in memory, and the store is
    overwritten with that one-entry ledger. *)
Theorem payment_over_unreadable_store_keeps_only_marker (L : Libraries)
    (H : LibrariesSpec L) (key : fernet_key) (r : entropy) (now : instant)
    (self : ZakatMonitor) (unreadable : token) :
  fernet_decrypt key unreadable = None →
  let out := record_zakat_payment key r now self None (Some unreadable) in
  let marker := ZakatPaid (now_isoformat now) (now_strftime_dmy now) in
  balance_history out.1.1 = [marker]
  ∧ out.1.2 ≠ Some unreadable
  ∧ _load_balance_history key out.1.2 = [marker]
  ∧ out.2 = PaymentRecorded (now_strftime_dmy now).
Proof.
  intros Hbad out marker.
  destruct (proj1 (payment_appends_marker_to_stored_ledger L H key r now self
                     (Some unreadable)))
    as (Hmem & Hstore & Hout & _).
  assert (Hempty : _load_balance_history key (Some unreadable) = []).
  { cbn. by rewrite Hbad. }
  rewrite Hempty in Hmem, Hstore.
  split; [exact Hmem|]. split; [|split; [exact Hstore|exact Hout]].
  intros Hsame. fold out in Hstore. rewrite Hsame, Hempty in Hstore.
  discriminate.
Qed.

Lemma payment_over_unreadable_store_witness :
  LibrariesSpec Reference.libraries ∧
  let L := Reference.libraries in
  let now := {| now_isoformat := "2025-03-01T10:00:00.000000";
                now_strftime_dmy := "01.03.2025" |} in
  let stored := [test_entry 0 true; test_entry 1 true] in
  let unreadable := fernet_encrypt "right key" () stored in
  let out := record_zakat_payment "wrong key" () now (test_monitor stored)
               None (Some unreadable) in
  let marker := ZakatPaid "2025-03-01T10:00:00.000000" "01.03.2025" in
  fernet_decrypt "wrong key" unreadable = None
  ∧ _load_balance_history "right key" (Some unreadable) = stored
  ∧ balance_history out.1.1 = [marker]
  ∧ out.1.2 ≠ Some unreadable
  ∧ _load_balance_history "wrong key" out.1.2 = [marker]
  ∧ out.2 = PaymentRecorded "01.03.2025".
Proof.
  split; [exact reference_libraries_spec|].
  intros L now stored unreadable out marker.
  split; [reflexivity|]. split; [reflexivity|].
  exact (payment_over_unreadable_store_keeps_only_marker Reference.libraries
           reference_libraries_spec "wrong key" () now (test_monitor stored)
           unreadable eq_refl).
Defined.

(** ** The nisab threshold *)

Lemma first_nisab_in_range_spec patterns nisab_value :
  first_nisab_in_range patterns = Some nisab_value →
  nisab_in_range nisab_value = true ∧ MatchValue nisab_value ∈ patterns.
Proof.
  induction patterns as [|p patterns IH]; [done|]. cbn [first_nisab_in_range].
  destruct p as [| |v].
  - intros [Hr Hin]%IH. split; [done|]. by right.
  - intros [Hr Hin]%IH. split; [done|]. by right.
  - destruct (nisab_in_range v) eqn:Hv.
    + intros [= ->]. split; [done|]. by left.
    + intros [Hr Hin]%IH. split; [done|]. by right.
Qed.

Lemma get_official_nisab_bam_spec responses nisab_value :
  get_official_nisab_bam responses = Some nisab_value →
  nisab_in_range nisab_value = true
  ∧ ∃ patterns, HttpResponse 200 patterns ∈ responses
                ∧ MatchValue nisab_value ∈ patterns.
Proof.
  induction responses as [|u responses IH]; [done|].
  cbn [get_official_nisab_bam]. destruct u as [|status_code patterns].
  { intros (Hr & ps & Hps & Hin)%IH. split; [done|].
    exists ps. split; [by right|done]. }
  destruct (Z.eqb_spec status_code 200) as [->|_].
  - destruct (first_nisab_in_range patterns) as [v|] eqn:Hfirst.
    + intros [= ->]. apply first_nisab_in_range_spec in Hfirst as [Hr Hin].
      split; [done|]. exists patterns. split; [by left|done].
    + intros (Hr & ps & Hps & Hin)%IH. split; [done|].
      exists ps. split; [by right|done].
  - intros (Hr & ps & Hps & Hin)%IH. split; [done|].
    exists ps. split; [by right|done].
Qed.

(** A float of at least 5000 is not equal to zero. *)
Lemma nisab_min_not_zero (v : float) :
  PrimFloat.leb NISAB_MIN_BAM v = true → PrimFloat.eqb v 0%float = false.
Proof.
  rewrite FloatAxioms.leb_spec, FloatAxioms.eqb_spec.
  replace (Prim2SF NISAB_MIN_BAM)
    with (S754_finite false 5497558138880000 (-40)) by reflexivity.
  replace (Prim2SF 0%float) with (S754_zero false) by reflexivity.
  unfold SFleb, SFeqb. by destruct (Prim2SF v) as [[]|[]| |[] m e].
Qed.

Lemma first_nisab_in_range_none patterns v :
  first_nisab_in_range patterns = None → MatchValue v ∈ patterns →
  nisab_in_range v = false.
Proof.
  induction patterns as [|p patterns IH]; intros Hnone Hin;
    [by apply elem_of_nil in Hin|].
  cbn [first_nisab_in_range] in Hnone.
  apply elem_of_cons in Hin as [<-|Hin].
  - by destruct (nisab_in_range v).
  - destruct p as [| |w]; [by apply IH..|].
    destruct (nisab_in_range w); [done|by apply IH].
Qed.

Lemma get_official_nisab_bam_none responses patterns v :
  get_official_nisab_bam responses = None →
  HttpResponse 200 patterns ∈ responses → MatchValue v ∈ patterns →
  nisab_in_range v = false.
Proof.
  induction responses as [|u responses IH]; intros Hnone Hu Hv;
    [by apply elem_of_nil in Hu|].
  cbn [get_official_nisab_bam] in Hnone.
  apply elem_of_cons in Hu as [<-|Hu].
  - cbn in Hnone. destruct (first_nisab_in_range patterns) eqn:Hfirst;
      [done|]. by apply (first_nisab_in_range_none patterns).
  - destruct u as [|status_code ps]; [by apply IH|].
    destruct (status_code =? 200); [|by apply IH].
    destruct (first_nisab_in_range ps); [done|by apply IH].
Qed.

(** X11. The nisab threshold is either a value read from a page that
    answered with status 200, lying between 5000 and 35000, or the
    configured fallback; the fallback is used exactly when no such page
    shows a value in that band. A value out of the band is never
    returned as official. *)
Theorem nisab_threshold_in_band_or_fallback :
  ∀ responses fallback,
    let out := calculate_nisab_threshold responses fallback in
    let candidate v :=
      ∃ patterns, HttpResponse 200 patterns ∈ responses
                  ∧ MatchValue v ∈ patterns
                  ∧ nisab_in_range v = true in
    (out.2 = OfficialWebsite
     ∧ candidate out.1
     ∧ PrimFloat.leb 5000%float out.1 = true
     ∧ PrimFloat.leb out.1 35000%float = true)
    ∨ (out.2 = FallbackConfiguration
       ∧ out.1 = fallback
       ∧ ∀ v, ¬ candidate v).
Proof.
  intros responses fallback out candidate. subst out.
  unfold calculate_nisab_threshold.
  destruct (get_official_nisab_bam responses) as [v|] eqn:Hofficial.
  - apply get_official_nisab_bam_spec in Hofficial
      as (Hrange & patterns & Hpage & Hv).
    pose proof Hrange as [Hmin Hmax]%andb_prop.
    rewrite (nisab_min_not_zero v Hmin). left. cbn [fst snd].
    split; [done|]. split; [by exists patterns|done].
  - right. cbn [fst snd]. split; [done|]. split; [done|].
    intros v (patterns & Hpage & Hv & Hrange).
    pose proof (get_official_nisab_bam_none _ _ _ Hofficial Hpage Hv).
    congruence.
Qed.

(** ** The balances of one source *)

Lemma try_statements_none statements :
  try_statements None statements = None
  ↔ ∀ i pdf, statements !! i = Some (Some pdf) → extracted pdf = None.
Proof.
  induction statements as [|a statements IH]; cbn [try_statements].
  { split; [|done]. intros _ i pdf Hi. by rewrite lookup_nil in Hi. }
  destruct a as [pdf0|].
  - destruct (extracted pdf0) as [[b p]|] eqn:Hpdf0.
    + split; [done|]. intros Hall.
      specialize (Hall 0%nat pdf0 eq_refl). congruence.
    + rewrite IH. split.
      * intros Hall [|i] pdf Hi; simplify_eq/=; eauto.
      * intros Hall i pdf Hi. apply (Hall (S i)). done.
  - rewrite IH. split.
    + intros Hall [|i] pdf Hi; simplify_eq/=; eauto.
    + intros Hall i pdf Hi. apply (Hall (S i)). done.
Qed.

Lemma try_statements_first statements i pdf balance period :
  statements !! i = Some (Some pdf) →
  extracted pdf = Some (balance, period) →
  (∀ j pdf', (j < i)%nat → statements !! j = Some (Some pdf') →
     extracted pdf' = None) →
  try_statements None statements
  = Some {| ending_balance := balance; bi_period_end := period;
            filename_account := identified pdf |}.
Proof.
  revert i. induction statements as [|a statements IH]; intros i Hi Hpdf Hbefore.
  { by rewrite lookup_nil in Hi. }
  destruct i as [|i]; simplify_eq/=.
  { by rewrite Hpdf. }
  assert (Hrest : try_statements None statements
                  = Some {| ending_balance := balance; bi_period_end := period;
                            filename_account := identified pdf |}).
  { apply (IH i); [done..|]. intros j pdf' Hj Hlook.
    apply (Hbefore (S j)); [lia|done]. }
  destruct a as [pdf0|]; [|done].
  by rewrite (Hbefore 0%nat pdf0 ltac:(lia) eq_refl).
Qed.

Lemma try_statements_some statements info :
  try_statements None statements = Some info →
  ∃ i pdf, statements !! i = Some (Some pdf) ∧ is_Some (extracted pdf).
Proof.
  induction statements as [|a statements IH]; cbn [try_statements]; [done|].
  destruct a as [pdf0|].
  - destruct (extracted pdf0) as [[b p]|] eqn:Hpdf0.
    + intros _. exists 0%nat, pdf0. by rewrite Hpdf0.
    + intros (i & pdf & Hi & Hpdf)%IH. by exists (S i), pdf.
  - intros (i & pdf & Hi & Hpdf)%IH. by exists (S i), pdf.
Qed.

(** X12. An account is found exactly when one of its three most recent
    statements was downloaded and read; the first such statement gives the
    balance (times the fixed rate for the EUR account) and the period; an
    account that is not found counts for zero; and statements after the
    third are never consulted. *)
Theorem account_found_from_three_most_recent :
  ∀ cur account_number statements,
    let out := process_account cur account_number statements in
    (ab_found out.1 = true
     ↔ ∃ i pdf, (i < 3)%nat ∧ statements !! i = Some (Some pdf)
                ∧ is_Some (extracted pdf))
    ∧ (ab_found out.1 = false →
       out = (account_not_found account_number, None)
       ∧ ab_balance_bam out.1 = 0%float)
    ∧ (∀ i pdf balance period,
         (i < 3)%nat → statements !! i = Some (Some pdf) →
         extracted pdf = Some (balance, period) →
         (∀ j pdf', (j < i)%nat → statements !! j = Some (Some pdf') →
            extracted pdf' = None) →
         ab_found out.1 = true
         ∧ ab_balance out.1 = balance
         ∧ ab_period out.1 = period
         ∧ ab_balance_bam out.1
           = match cur with
             | EUR => PrimFloat.mul balance EUR_TO_BAM_RATE
             | BAM => balance
             end)
    ∧ process_account cur account_number (take 3 statements) = out.
Proof.
  intros cur account_number statements out. subst out.
  unfold process_account. split; [|split; [|split]].
  - destruct (try_statements None (take 3 statements)) as [info|] eqn:Htry;
      cbn [fst ab_found account_not_found].
    + split; [intros _|done].
      apply try_statements_some in Htry as (i & pdf & Hi & Hpdf).
      apply lookup_take_Some in Hi as [Hi Hlt]. by exists i, pdf.
    + split; [done|]. intros (i & pdf & Hlt & Hi & Hsome).
      pose proof (proj1 (try_statements_none _) Htry i pdf) as Hnone.
      rewrite lookup_take_lt in Hnone by done. rewrite Hnone in Hsome by done.
      by destruct Hsome.
  - destruct (try_statements None (take 3 statements)); [done|].
    by intros _.
  - intros i pdf balance period Hlt Hi Hpdf Hbefore.
    rewrite (try_statements_first (take 3 statements) i pdf balance period).
    + done.
    + by rewrite lookup_take_lt.
    + done.
    + intros j pdf' Hj [Hlook _]%lookup_take_Some. by apply (Hbefore j).
  - by rewrite take_take.
Qed.

Lemma process_account_not_found cur account_number statements :
  ab_found (process_account cur account_number statements).1 = false →
  process_account cur account_number statements
  = (account_not_found account_number, None).
Proof.
  unfold process_account.
  by destruct (try_statements None (take 3 statements)).
Qed.

(** X13. A source for which neither account has a readable statement does
    not fail: it reports both accounts as not found, a total of zero, and
    today as the end of the period. *)
Theorem source_without_readings_reports_zero (L : Libraries)
    (today bam eur : string)
    (bam_statements eur_statements : list (option pdf_attempt)) :
  ab_found (process_account BAM bam bam_statements).1 = false →
  ab_found (process_account EUR eur eur_statements).1 = false →
  process_multi_account_statements today bam eur bam_statements
    eur_statements
  = {| bam_account := account_not_found bam;
       eur_account := account_not_found eur;
       ci_total_balance_bam := 0%float;
       ci_period_end := today |}.
Proof.
  intros Hbam Heur. unfold process_multi_account_statements.
  rewrite (process_account_not_found BAM bam _ Hbam).
  rewrite (process_account_not_found EUR eur _ Heur). reflexivity.
Qed.

Lemma source_without_readings_witness :
  let L := Reference.libraries in
  let unreadable := Some {| identified := None; extracted := None |} in
  let bam_statements := [None; unreadable; None; january_statement] in
  ab_found (process_account BAM "1234" bam_statements).1 = false
  ∧ ab_found (process_account EUR "5678" []).1 = false
  ∧ process_multi_account_statements "05.02.2025" "1234" "5678"
      bam_statements []
    = {| bam_account := account_not_found "1234";
         eur_account := account_not_found "5678";
         ci_total_balance_bam := 0%float;
         ci_period_end := "05.02.2025" |}.
Proof.
  intros L unreadable bam_statements.
  split; [reflexivity|]. split; [reflexivity|].
  exact (source_without_readings_reports_zero Reference.libraries
           "05.02.2025" "1234" "5678" bam_statements [] eq_refl eq_refl).
Defined.

(** X14. When both accounts of a source are read and both period ends
    parse as dates, the period end of the source is the later of the two
    dates, and the one of the BAM account when they are the same day. *)
Theorem source_period_is_later_date (L : Libraries) (today bam eur : string)
    (bam_statements eur_statements : list (option pdf_attempt))
    (bam_info eur_info : BalanceInfo) (bam_period eur_period : string)
    (bam_dt eur_dt : datetime) :
  (process_account BAM bam bam_statements).2 = Some bam_info →
  (process_account EUR eur eur_statements).2 = Some eur_info →
  bi_period_end bam_info = Some bam_period →
  bi_period_end eur_info = Some eur_period →
  strptime_dmy bam_period = Some bam_dt →
  strptime_dmy eur_period = Some eur_dt →
  bam_period ≠ "" → eur_period ≠ "" →
  ci_period_end
    (process_multi_account_statements today bam eur bam_statements
       eur_statements)
  = if datetime_gt eur_dt bam_dt then eur_period else bam_period.
Proof.
  intros Hb He Hpb Hpe Hdb Hde Hnb Hne.
  unfold process_multi_account_statements.
  destruct (process_account BAM bam bam_statements) as [bam_balance ?].
  destruct (process_account EUR eur eur_statements) as [eur_balance ?].
  cbn [snd] in Hb, He. subst. cbn [ci_period_end].
  rewrite Hpb, Hpe.
  assert (Hfirst : track_latest_period None (Some bam_period)
                   = Some bam_period) by (by destruct bam_period).
  rewrite Hfirst.
  rewrite (track_latest_period_parsed bam_period eur_period bam_dt eur_dt)
    by done.
  destruct (datetime_gt eur_dt bam_dt).
  - by destruct eur_period.
  - by destruct bam_period.
Qed.

Lemma source_period_witness :
  let L := Reference.libraries in
  let december := Some {| identified := Some EUR;
                          extracted := Some (1000%float, Some "31.12.2024") |} in
  ci_period_end
    (process_multi_account_statements "05.02.2025" "1234" "5678"
       [january_statement] [december])
  = "31.01.2025".
Proof.
  intros L december.
  exact (source_period_is_later_date Reference.libraries "05.02.2025" "1234"
           "5678" [january_statement] [december] _ _ "31.01.2025"
           "31.12.2024" _ _ eq_refl eq_refl eq_refl eq_refl eq_refl eq_refl
           ltac:(discriminate) ltac:(discriminate)).
Defined.

(** ** One analysis *)

Lemma py_sum_zeros (l : list float) :
  Forall (λ x, x = 0%float) l → py_sum l = 0%float.
Proof.
  unfold py_sum. induction 1 as [|x l -> _ IH]; [done|]. exact IH.
Qed.

(** X15. An analysis is all or nothing for the ledger. Either it fails, and
    then the monitor and the stored file are exactly as before; it fails
    exactly when the credentials are missing, no source answered, or the
    grand total equals zero. Or it returns a verdict, and then the store
    holds the ledger of the monitor, which has at most 24 entries and ends
    with the observation of this run: recorded at the current instant, with
    the total assets of the verdict, which are the bank balance plus the
    additional assets. *)
Theorem analysis_is_all_or_nothing (L : Libraries) (H : LibrariesSpec L)
    (key : fernet_key) (r : entropy) (inputs : analysis_inputs)
    (self : ZakatMonitor) (fs : option token) :
  let out := run_analysis key r inputs self fs in
  let no_data :=
    credentials_present inputs = false
    ∨ match _process_all_sources (today inputs) (source_outcomes inputs) with
      | None => True
      | Some (total, _) => PrimFloat.eqb total 0%float = true
      end in
  match out.2 with
  | AnalysisFailed _ => out.1 = (self, fs) ∧ no_data
  | Analysed verdict =>
      ¬ no_data
      ∧ _load_balance_history key out.1.2 = balance_history out.1.1
      ∧ (length (balance_history out.1.1) ≤ 24)%nat
      ∧ r_total_assets verdict
        = PrimFloat.add (r_bank_balance verdict) (additional_assets self)
      ∧ ∃ earlier o,
          balance_history out.1.1 = earlier ++ [Observation o]
          ∧ earlier `sublist_of` balance_history self
          ∧ timestamp o = now inputs
          ∧ balance o = r_total_assets verdict
          ∧ nisab_threshold o = r_nisab_threshold verdict
          ∧ above_nisab o = r_above_nisab verdict
  end.
Proof.
  intros out no_data. subst out no_data. unfold run_analysis.
  destruct (credentials_present inputs); cbn [negb];
    [|cbn [fst snd]; by auto].
  destruct (_process_all_sources _ _) as [[total period]|];
    [|cbn [fst snd]; by auto].
  destruct (PrimFloat.eqb total 0%float) eqn:Hzero;
    [cbn [fst snd]; by auto|].
  set (nisab := (calculate_nisab_threshold _ _).1).
  set (current_date := match period with
                       | EmptyString => _
                       | _ => _
                       end).
  pose proof (check_balance_history self (PrimFloat.add total
    (additional_assets self)) nisab current_date total (now inputs)) as Hh.
  destruct (check_hijri_year_threshold self _ nisab current_date total _)
    as [self' verdict] eqn:Hcheck.
  cbn [fst snd] in *.
  split; [intros [?|?]; congruence|].
  split; [apply load_after_save_balance_history|].
  split; [rewrite Hh; apply updated_history_length|].
  apply (f_equal snd) in Hcheck. cbn [snd] in Hcheck. subst verdict.
  split; [done|].
  eexists _, _. rewrite Hh, updated_history_snoc. split; [done|].
  split; [|done].
  etransitivity; [apply sublist_drop|apply sublist_filter].
Qed.

Lemma analysis_all_or_nothing_witness :
  LibrariesSpec Reference.libraries ∧
  let L := Reference.libraries in
  let self := test_monitor [test_entry 0 true] in
  let fs := _save_balance_history "k" () self None in
  let out := run_analysis "k" () (january_inputs L) self fs in
  ∃ verdict,
    out.2 = Analysed verdict
    ∧ r_consecutive_months_above_nisab verdict = 2
    ∧ r_nisab_threshold verdict = 24624%float
    ∧ _load_balance_history "k" out.1.2 = balance_history out.1.1
    ∧ entry_gregorian_date <$> balance_history out.1.1
      = [Some "01.01.2025"; Some "31.01.2025"].
Proof.
  split; [exact reference_libraries_spec|]. intros L self fs out.
  pose proof (analysis_is_all_or_nothing Reference.libraries
                reference_libraries_spec "k" () (january_inputs L) self fs)
    as Hall.
  cbv zeta in Hall. fold out in Hall.
  destruct out.2 as [verdict|why] eqn:Hout; [|discriminate Hout].
  exists verdict. split; [done|].
  injection Hout as <-. destruct Hall as (_ & Hstore & _).
  split; [reflexivity|]. split; [reflexivity|]. split; [exact Hstore|].
  reflexivity.
Defined.

Lemma merge_all_sources_zero today results :
  Forall (λ res, total_balance_bam res = 0%float) results →
  match merge_all_sources today results with
  | None => True
  | Some (total, _) => total = 0%float
  end.
Proof.
  intros Hzero. destruct results as [|res results]; [done|].
  cbn [merge_all_sources]. apply py_sum_zeros.
  apply Forall_fmap. exact Hzero.
Qed.

(** X16. When every source that answered reports a total of zero (as a
    source does when none of its accounts could be read), the analysis
    fails for want of balance information: no observation is recorded, the
    nisab is not looked up, and the monitor and the store are as before. *)
Theorem analysis_without_balances_records_nothing (L : Libraries)
    (key : fernet_key) (r : entropy) (inputs : analysis_inputs)
    (self : ZakatMonitor) (fs : option token) :
  credentials_present inputs = true →
  Forall (λ outcome, ∀ c, outcome = Some c → ci_total_balance_bam c = 0%float)
    (source_outcomes inputs) →
  run_analysis key r inputs self fs
  = (self, fs, AnalysisFailed NoBalanceInformation).
Proof.
  intros Hcred Hzero. unfold run_analysis. rewrite Hcred. cbn [negb].
  unfold _process_all_sources.
  pose proof (merge_all_sources_zero (today inputs)
    (to_source_result <$> omap id (source_outcomes inputs))) as Hmerge.
  destruct (merge_all_sources _ _) as [[total period]|]; [|done].
  rewrite Hmerge; [done|].
  apply Forall_fmap, Forall_forall. intros c Hc.
  apply list_elem_of_omap in Hc as (outcome & Hin & Hsome).
  cbn in Hsome. subst outcome.
  by apply (proj1 (Forall_forall _ _) Hzero (Some c)).
Qed.

Lemma analysis_without_balances_witness :
  let L := Reference.libraries in
  let silent := process_multi_account_statements "05.02.2025" "1234" "5678"
                  [None; None] [] in
  let inputs :=
    {| credentials_present := true;
       today := "05.02.2025";
       source_outcomes := [Some silent; None; Some silent];
       nisab_responses := [];
       NISAB_FALLBACK_BAM := 24624%float;
       to_hijri := λ _, None;
       now := "2025-02-05T09:00:00.000000" |} in
  let self := test_monitor [test_entry 0 true] in
  run_analysis "k" () inputs self None
  = (self, None, AnalysisFailed NoBalanceInformation).
Proof.
  intros L silent inputs self.
  apply (analysis_without_balances_records_nothing Reference.libraries);
    [reflexivity|].
  repeat constructor; intros c [= <-]; reflexivity.
Defined.

(** ** The environment of the process *)

Lemma lookup_set_or_delete_eq key value (environ : gmap string string) :
  set_or_delete key value environ !! key = value.
Proof.
  destruct value; cbn; [apply lookup_insert_eq|apply lookup_delete_eq].
Qed.

Lemma lookup_set_or_delete_ne key key' value (environ : gmap string string) :
  key ≠ key' → set_or_delete key value environ !! key' = environ !! key'.
Proof.
  intros Hne. destruct value; cbn;
    [by apply lookup_insert_ne|by apply lookup_delete_ne].
Qed.

Lemma dict_set_fresh {V} key (value : V) d :
  key ∉ d.*1 → dict_set key value d = d ++ [(key, value)].
Proof. intros Hfresh. unfold dict_set. by rewrite decide_False. Qed.

(** What [_apply_env_mappings] leaves behind when the keys are new to
    [_original_env]: each variable set or deleted in turn, and its former
    value on record. *)
Lemma apply_env_mappings_unfold env_mappings environ original :
  NoDup env_mappings.*1 →
  (∀ key, key ∈ env_mappings.*1 → key ∉ original.*1) →
  _apply_env_mappings env_mappings
    {| os_environ := environ; _original_env := original |}
  = {| os_environ :=
         foldl (λ e kv, set_or_delete kv.1 (_sanitize_value <$> kv.2) e)
           environ env_mappings;
       _original_env :=
         original ++ ((λ kv, (kv.1, environ !! kv.1)) <$> env_mappings) |}.
Proof.
  unfold _apply_env_mappings.
  revert environ original.
  induction env_mappings as [|[key value] ms IH]; intros environ original
    Hnd Hfresh; cbn [foldl fmap list_fmap].
  { by rewrite app_nil_r. }
  cbn in Hnd. apply NoDup_cons in Hnd as [Hkey Hnd].
  cbn [fst snd os_environ _original_env].
  rewrite dict_set_fresh by (apply Hfresh; cbn; by left).
  rewrite IH; [|done|].
  - f_equal. rewrite <- app_assoc. cbn. do 2 f_equal.
    apply list_fmap_ext. intros i [key' value'] Hi. cbn. f_equal.
    apply lookup_set_or_delete_ne. intros ->. apply Hkey.
    apply list_elem_of_fmap. exists (key', value'). split; [done|].
    by apply list_elem_of_lookup_2 in Hi.
  - intros key' Hin. rewrite fmap_app. cbn. rewrite elem_of_app.
    intros [Hold|Hnew%list_elem_of_singleton].
    + apply (Hfresh key'); [cbn; by right|done].
    + by subst.
Qed.

Lemma foldl_set_or_delete_other (ms : list (string * option string))
    (f : option string → option string) environ key :
  key ∉ ms.*1 →
  foldl (λ e kv, set_or_delete kv.1 (f kv.2) e) environ ms !! key
  = environ !! key.
Proof.
  revert environ. induction ms as [|[k v] ms IH]; intros environ Hkey; [done|].
  cbn in Hkey. apply not_elem_of_cons in Hkey as [Hne Hkey].
  cbn [foldl fst snd]. rewrite IH by done.
  by apply lookup_set_or_delete_ne.
Qed.

Lemma foldl_set_or_delete_last (ms : list (string * option string))
    (f : option string → option string) environ key value :
  NoDup ms.*1 → (key, value) ∈ ms →
  foldl (λ e kv, set_or_delete kv.1 (f kv.2) e) environ ms !! key = f value.
Proof.
  revert environ. induction ms as [|[k v] ms IH]; intros environ Hnd Hin.
  { by apply elem_of_nil in Hin. }
  cbn in Hnd. apply NoDup_cons in Hnd as [Hk Hnd].
  cbn [foldl fst snd]. apply elem_of_cons in Hin as [[= <- <-]|Hin].
  - rewrite foldl_set_or_delete_other by done.
    apply lookup_set_or_delete_eq.
  - by apply IH.
Qed.

(** X17. Applying the mappings of a configuration and restoring afterwards
    gives back the environment of the process exactly as it was, whatever
    the mappings set or deleted, and leaves no record behind. In between,
    each mapped variable holds its sanitised value, or is unset where the
    configuration has none, and no other variable is touched. *)
Theorem restore_env_undoes_apply_env_mappings
    (environ : gmap string string)
    (env_mappings : list (string * option string)) :
  NoDup env_mappings.*1 →
  let fresh := {| os_environ := environ; _original_env := [] |} in
  let applied := _apply_env_mappings env_mappings fresh in
  _restore_env applied = fresh
  ∧ (∀ key value, (key, value) ∈ env_mappings →
       os_environ applied !! key = _sanitize_value <$> value)
  ∧ (∀ key, key ∉ env_mappings.*1 →
       os_environ applied !! key = environ !! key).
Proof.
  intros Hnd fresh applied. subst applied fresh.
  rewrite apply_env_mappings_unfold by (done || (intros ? _; apply not_elem_of_nil)).
  cbn [app]. split; [|split].
  - unfold _restore_env. cbn [os_environ _original_env]. f_equal.
    set (recorded := (λ kv : string * option string, (kv.1, environ !! kv.1))
                       <$> env_mappings).
    assert (Hkeys : recorded.*1 = env_mappings.*1).
    { subst recorded. rewrite <- list_fmap_compose. by apply list_fmap_ext. }
    apply map_eq. intros key.
    destruct (decide (key ∈ env_mappings.*1)) as [Hin|Hout].
    + rewrite (foldl_set_or_delete_last recorded id _ key (environ !! key)).
      * done.
      * by rewrite Hkeys.
      * apply list_elem_of_fmap in Hin as ([k v] & -> & Hin).
        subst recorded. apply list_elem_of_fmap. by exists (k, v).
    + rewrite (foldl_set_or_delete_other recorded id) by (by rewrite Hkeys).
      by apply (foldl_set_or_delete_other env_mappings (fmap _sanitize_value)).
  - intros key value Hin. cbn [os_environ].
    by apply (foldl_set_or_delete_last env_mappings (fmap _sanitize_value)).
  - intros key Hout. cbn [os_environ].
    by apply (foldl_set_or_delete_other env_mappings (fmap _sanitize_value)).
Qed.

Lemma restore_env_witness :
  let fresh := {| os_environ := sample_environ; _original_env := [] |} in
  let applied := _apply_env_mappings sample_mappings fresh in
  NoDup sample_mappings.*1
  ∧ _restore_env applied = fresh
  ∧ os_environ applied !! "EMAIL_USERNAME" = Some "me@example.com"
  ∧ os_environ applied !! "HOME" = Some "/Users/me".
Proof.
  intros fresh applied.
  assert (Hnd : NoDup sample_mappings.*1).
  { apply (bool_decide_unpack _). by vm_compute. }
  destruct (restore_env_undoes_apply_env_mappings sample_environ
              sample_mappings Hnd) as (Hrestore & Hset & Hother).
  split; [exact Hnd|]. split; [exact Hrestore|]. split.
  - exact (Hset "EMAIL_USERNAME" (Some " me@example.com ")
             ltac:(by left)).
  - refine (eq_trans (Hother "HOME" _) eq_refl).
    apply (bool_decide_unpack _). by vm_compute.
Defined.

(** ** Eviction of older entries *)

Lemma py_last_n_cons_long {A} n x (l : list A) :
  (n ≤ length l)%nat → py_last_n n (x :: l) = py_last_n n l.
Proof.
  intros Hn. unfold py_last_n. cbn [length].
  replace (S (length l) - n)%nat with (S (length l - n)) by lia. done.
Qed.

Lemma dedup_append_split G pre o :
  gregorian_date o ∉ gregorian_date <$> pre →
  dedup_append (G ++ (Observation <$> pre)) o
  = filter (λ e, entry_gregorian_date e ≠ gregorian_date o) G
      ++ (Observation <$> (pre ++ [o])).
Proof.
  intros Hfresh. unfold dedup_append.
  rewrite filter_app, fmap_app, <- app_assoc. do 2 f_equal.
  apply filter_all, Forall_fmap, Forall_forall. intros p Hp Heq.
  apply Hfresh. cbn in Heq. rewrite <- Heq. by apply list_elem_of_fmap_2.
Qed.

(** The ledger while observations of new dates come in: once the
    observations seen, earlier ones [pre] and coming ones [obs], number 24
    or more, the older entries [G] are gone at the end. *)
Lemma record_observations_pushes_out obs :
  ∀ G pre,
    NoDup (gregorian_date <$> (pre ++ obs)) →
    (24 ≤ length pre + length obs)%nat →
    (length G + length pre ≤ 24)%nat →
    record_observations (G ++ (Observation <$> pre)) obs
    = py_last_n 24 (Observation <$> (pre ++ obs)).
Proof.
  induction obs as [|o obs IH]; intros G pre Hnd Hmany Hcap.
  { cbn [record_observations foldl length] in *.
    assert (G = []) as -> by (apply length_zero_iff_nil; lia).
    rewrite app_nil_r. cbn [app]. symmetry. apply py_last_n_short.
    rewrite length_fmap. lia. }
  assert (Hfresh : gregorian_date o ∉ gregorian_date <$> pre).
  { rewrite fmap_app in Hnd. apply NoDup_app in Hnd as (_ & Hdisj & _).
    intros Hin. apply (Hdisj _ Hin). cbn. by left. }
  assert (Hnd' : NoDup (gregorian_date <$> ((pre ++ [o]) ++ obs)))
    by (by rewrite <- app_assoc).
  unfold record_observations in *. cbn [foldl].
  unfold updated_history, MAX_HISTORY_MONTHS in *.
  rewrite dedup_append_split by done.
  set (G' := filter _ G).
  assert (HG' : (length G' ≤ length G)%nat) by apply length_filter.
  cbn [length] in Hmany.
  destruct (decide (length G' + length (pre ++ [o]) ≤ 24)%nat) as [Hfit|Hfull].
  - rewrite py_last_n_short by (rewrite length_app, length_fmap; lia).
    rewrite (IH G' (pre ++ [o])); [by rewrite <- app_assoc|done|..].
    + rewrite length_app. cbn [length]. lia.
    + done.
  - rewrite length_app in Hfull. cbn [length] in Hfull.
    assert (length G' = length G) as HGlen by lia.
    destruct G' as [|g G''] eqn:HGeq.
    + destruct pre as [|p pre]; [cbn in *; lia|].
      cbn [app fmap list_fmap].
      rewrite py_last_n_cons_long
        by (rewrite length_fmap, length_app; cbn [length] in *; lia).
      rewrite py_last_n_short
        by (rewrite length_fmap, length_app; cbn [length] in *; lia).
      pose proof (IH [] (pre ++ [o])) as IH0. cbn [app] in IH0. rewrite IH0.
      * cbn [app fmap list_fmap]. rewrite <- app_assoc. cbn [app].
        symmetry. apply py_last_n_cons_long.
        rewrite length_fmap, length_app. cbn [length] in *. lia.
      * cbn [app fmap list_fmap] in Hnd'.
        apply NoDup_cons in Hnd' as [_ Hnd']. done.
      * rewrite length_app. cbn [length] in *. lia.
      * rewrite length_app. cbn [length] in *. lia.
    + cbn [app].
      rewrite py_last_n_cons_long
        by (rewrite length_app, length_fmap, length_app;
            cbn [length] in *; lia).
      rewrite py_last_n_short
        by (rewrite length_app, length_fmap, length_app;
            cbn [length] in *; lia).
      rewrite (IH G'' (pre ++ [o])); [by rewrite <- app_assoc|done|..].
      * rewrite length_app. cbn [length]. lia.
      * rewrite length_app. cbn [length] in *. lia.
Qed.

(** X18. Twenty-four or more runs for pairwise distinct dates leave only
    the observations of the last 24 of them, whatever the ledger held
    before: every older entry is evicted, payment markers included. *)
Theorem new_observations_push_out_older_entries (history : list entry)
    (obs : list observation) :
  NoDup (gregorian_date <$> obs) →
  (24 ≤ length obs)%nat →
  record_observations history obs
  = Observation <$> drop (length obs - 24) obs
  ∧ Forall (λ e, is_zakat_paid e = false) (record_observations history obs).
Proof.
  intros Hnd Hmany.
  assert (Hledger : record_observations history obs
                    = Observation <$> drop (length obs - 24) obs).
  { destruct obs as [|o obs]; [cbn in Hmany; lia|].
    unfold record_observations. cbn [foldl].
    rewrite updated_history_snoc.
    change [Observation o] with (Observation <$> [o]).
    rewrite (record_observations_pushes_out obs _ [o]).
    - unfold py_last_n. rewrite length_fmap. cbn [app]. by rewrite fmap_drop.
    - done.
    - cbn [length] in *. lia.
    - rewrite py_last_n_length. cbn [length]. lia. }
  split; [done|]. rewrite Hledger.
  apply Forall_fmap, Forall_forall. by intros o _.
Qed.

(** A payment marker and an observation, then two years of monthly runs. *)
Lemma new_observations_push_out_witness :
  let history := [january_15_marker; test_entry 20 true] in
  let obs := monthly_observations 24 in
  NoDup (gregorian_date <$> obs)
  ∧ (24 ≤ length obs)%nat
  ∧ record_observations history obs = Observation <$> obs
  ∧ Forall (λ e, is_zakat_paid e = false) (record_observations history obs).
Proof.
  intros history obs.
  assert (Hnd : NoDup (gregorian_date <$> obs)).
  { apply (bool_decide_unpack _). by vm_compute. }
  assert (Hmany : (24 ≤ length obs)%nat) by (cbn; lia).
  split; [exact Hnd|]. split; [exact Hmany|].
  exact (new_observations_push_out_older_entries history obs Hnd Hmany).
Defined.

(** ** Sanitised configuration values *)

Lemma without_prefix_Some w s rest :
  without_prefix w s = Some rest ↔ s = w ++ rest.
Proof.
  revert s. induction w as [|a w IH]; intros s; cbn [without_prefix app].
  { split; [by intros [= ->]|by intros ->]. }
  destruct s as [|b s]; [done|].
  destruct (N.eqb_spec a b) as [->|Hne].
  - rewrite IH. split; [by intros ->|by intros [= ->]].
  - split; [done|]. by intros [= -> _].
Qed.

Lemma without_prefix_None w s :
  without_prefix w s = None ↔ ¬ w `prefix_of` s.
Proof.
  split.
  - intros Hnone [rest ->]. by rewrite (proj2 (without_prefix_Some w _ rest))
      in Hnone.
  - intros Hnot. destruct (without_prefix w s) as [rest|] eqn:Hw; [|done].
    destruct Hnot. exists rest. by apply without_prefix_Some.
Qed.

Lemma without_leading_space_Some spaces s rest :
  without_leading_space spaces s = Some rest →
  ∃ w, w ∈ spaces ∧ s = w ++ rest.
Proof.
  induction spaces as [|w spaces IH]; cbn [without_leading_space]; [done|].
  destruct (without_prefix w s) as [r|] eqn:Hw.
  - intros [= ->]. exists w. split; [by left|by apply without_prefix_Some].
  - intros (w' & Hin & ->)%IH. exists w'. split; [by right|done].
Qed.

Lemma without_leading_space_None spaces s :
  without_leading_space spaces s = None ↔
  ∀ w, w ∈ spaces → ¬ w `prefix_of` s.
Proof.
  induction spaces as [|w spaces IH]; cbn [without_leading_space].
  { split; [|done]. intros _ w Hw. by apply elem_of_nil in Hw. }
  destruct (without_prefix w s) as [r|] eqn:Hw.
  - split; [done|]. intros Hall.
    destruct (Hall w ltac:(by left)). exists r. by apply without_prefix_Some.
  - rewrite IH. split.
    + intros Hall w' [->|Hin]%elem_of_cons; [by apply without_prefix_None|].
      by apply Hall.
    + intros Hall w' Hin. apply Hall. by right.
Qed.

Lemma lstrip_rounds_suffix rounds spaces s :
  lstrip_rounds rounds spaces s `suffix_of` s.
Proof.
  revert s. induction rounds as [|rounds IH]; intros s; cbn [lstrip_rounds];
    [done|].
  destruct (without_leading_space spaces s) as [rest|] eqn:Hs; [|done].
  apply without_leading_space_Some in Hs as (w & _ & ->).
  etransitivity; [apply IH|]. by apply suffix_app_r.
Qed.

Lemma lstrip_rounds_done rounds spaces s :
  Forall (λ w, w ≠ []) spaces → (length s ≤ rounds)%nat →
  without_leading_space spaces (lstrip_rounds rounds spaces s) = None.
Proof.
  intros Hne. revert s.
  induction rounds as [|rounds IH]; intros s Hlen; cbn [lstrip_rounds].
  - destruct s; [|cbn in Hlen; lia].
    apply without_leading_space_None. intros w Hw [k Hk].
    destruct w; [|done].
    by apply (proj1 (Forall_forall _ _) Hne [] Hw).
  - destruct (without_leading_space spaces s) as [rest|] eqn:Hs; [|done].
    apply IH. apply without_leading_space_Some in Hs as (w & Hw & ->).
    pose proof (proj1 (Forall_forall _ _) Hne w Hw).
    rewrite length_app in Hlen. destruct w; [done|]. cbn in Hlen. lia.
Qed.

Lemma py_whitespace_nonempty : Forall (λ w : list N, w ≠ []) py_whitespace.
Proof. apply (bool_decide_unpack _). by vm_compute. Qed.

Lemma py_strip_infix s : ∃ before after, s = before ++ py_strip s ++ after.
Proof.
  unfold py_strip.
  set (left := lstrip_rounds (length s) py_whitespace s).
  destruct (lstrip_rounds_suffix (length s) py_whitespace s) as [before Hs].
  destruct (lstrip_rounds_suffix (length left) (reverse <$> py_whitespace)
              (reverse left)) as [after Hleft].
  exists before, (reverse after). fold left in Hs. rewrite Hs at 1. f_equal.
  apply (inj reverse). by rewrite reverse_app, !reverse_involutive.
Qed.

Lemma py_strip_no_surrounding_space s w :
  w ∈ py_whitespace →
  ¬ w `prefix_of` py_strip s ∧ ¬ w `suffix_of` py_strip s.
Proof.
  intros Hw. unfold py_strip.
  set (left := lstrip_rounds (length s) py_whitespace s).
  set (right := lstrip_rounds (length left) (reverse <$> py_whitespace)
                  (reverse left)).
  assert (Hleft : without_leading_space py_whitespace left = None).
  { apply lstrip_rounds_done; [apply py_whitespace_nonempty|done]. }
  assert (Hright : without_leading_space (reverse <$> py_whitespace) right
                   = None).
  { apply lstrip_rounds_done; [|by rewrite length_reverse].
    apply Forall_fmap. apply (Forall_impl _ _ _ py_whitespace_nonempty).
    intros x Hx Hrev. apply Hx. apply (inj reverse). by rewrite Hrev. }
  split.
  - intros [k Hk].
    destruct (lstrip_rounds_suffix (length left) (reverse <$> py_whitespace)
                (reverse left)) as [after Hsuffix].
    fold right in Hsuffix.
    apply (proj1 (without_leading_space_None _ _) Hleft w Hw).
    exists (k ++ reverse after).
    rewrite <- (reverse_involutive left), Hsuffix, reverse_app, Hk.
    by rewrite <- app_assoc.
  - intros Hsuffix.
    apply (proj1 (without_leading_space_None _ _) Hright (reverse w)).
    + by apply list_elem_of_fmap_2.
    + apply suffix_prefix_reverse in Hsuffix.
      by rewrite reverse_involutive in Hsuffix.
Qed.

Lemma replace_nbsp_cons a b s :
  replace_nbsp (a :: b :: s)
  = if ((a =? 194) && (b =? 160))%N then 32%N :: replace_nbsp s
    else a :: replace_nbsp (b :: s).
Proof. done. Qed.

Lemma replace_nbsp_head b s :
  head (replace_nbsp (b :: s)) = Some 32%N
  ∨ head (replace_nbsp (b :: s)) = Some b.
Proof.
  destruct s as [|c s]; [by right|]. rewrite replace_nbsp_cons.
  destruct ((b =? 194) && (c =? 160))%N; [by left|by right].
Qed.

Lemma replace_nbsp_two_steps (P : list N → Prop) :
  P [] → (∀ a, P [a]) →
  (∀ a b s, P s → P (b :: s) → P (a :: b :: s)) →
  ∀ s, P s.
Proof.
  intros Hnil Hone Hstep s.
  assert (Hboth : P s ∧ ∀ a, P (a :: s)); [|by destruct Hboth].
  induction s as [|b s [IH1 IH2]]; [done|].
  split; [apply IH2|]. intros a. by apply Hstep.
Qed.

Lemma starts_nbsp_other a l : a ≠ 194%N → starts_nbsp (a :: l) = false.
Proof.
  intros Ha. destruct l as [|b l]; [done|]. cbn [starts_nbsp].
  by rewrite (proj2 (N.eqb_neq a 194) Ha).
Qed.

Lemma starts_nbsp_replaced a b s :
  b ≠ 160%N → starts_nbsp (a :: replace_nbsp (b :: s)) = false.
Proof.
  intros Hb.
  destruct (replace_nbsp_head b s) as [Hh|Hh];
    destruct (replace_nbsp (b :: s)) as [|h t]; try done;
    cbn in Hh; injection Hh as ->; cbn [starts_nbsp].
  - apply andb_false_r.
  - rewrite (proj2 (N.eqb_neq b 160) Hb). apply andb_false_r.
Qed.

Lemma replace_nbsp_no_nbsp s : no_nbsp (replace_nbsp s).
Proof.
  induction s as [| |a b s IHs IHbs] using replace_nbsp_two_steps;
    [done|done|].
  rewrite replace_nbsp_cons.
  destruct (N.eqb_spec a 194) as [->|Ha]; cbn [andb].
  - destruct (N.eqb_spec b 160) as [->|Hb].
    + split; [|exact IHs]. by destruct (replace_nbsp s).
    + split; [|exact IHbs]. by apply starts_nbsp_replaced.
  - split; [|exact IHbs]. by apply starts_nbsp_other.
Qed.

Lemma replace_nbsp_bytes s :
  Forall (λ b, b < 256)%N s → Forall (λ b, b < 256)%N (replace_nbsp s).
Proof.
  induction s as [| |a b s IHs IHbs] using replace_nbsp_two_steps;
    [done|done|].
  intros Hall. rewrite replace_nbsp_cons.
  apply Forall_cons in Hall as [Ha Hall].
  destruct ((a =? 194) && (b =? 160))%N.
  - constructor; [done|]. apply IHs. by apply Forall_cons in Hall as [_ ?].
  - constructor; [done|]. by apply IHbs.
Qed.

Lemma replace_nbsp_id s : no_nbsp s → replace_nbsp s = s.
Proof.
  induction s as [|a s IH]; [done|]. intros [Hstart Hrest].
  destruct s as [|b s]; [done|]. rewrite replace_nbsp_cons.
  cbn [starts_nbsp] in Hstart. rewrite Hstart. f_equal. by apply IH.
Qed.

Lemma no_nbsp_app_r l1 l2 : no_nbsp (l1 ++ l2) → no_nbsp l2.
Proof. induction l1 as [|a l1 IH]; [done|]. intros [_ H]. by apply IH. Qed.

Lemma no_nbsp_app_l l1 l2 : no_nbsp (l1 ++ l2) → no_nbsp l1.
Proof.
  induction l1 as [|a l1 IH]; [done|]. intros [Hstart Hrest].
  split; [|by apply IH]. destruct l1 as [|b l1]; [done|]. exact Hstart.
Qed.

Lemma no_nbsp_spec l : no_nbsp l ↔ ∀ l1 l2, l ≠ l1 ++ [194; 160]%N ++ l2.
Proof.
  split.
  - intros Hl l1 l2 ->. apply no_nbsp_app_r in Hl. by destruct Hl.
  - induction l as [|a l IH]; [done|]. intros Hno. split.
    + destruct l as [|b l]; [done|]. cbn.
      destruct (N.eqb_spec a 194) as [->|]; [|done].
      destruct (N.eqb_spec b 160) as [->|]; [|done].
      by destruct (Hno [] l).
    + apply IH. intros l1 l2 ->. by apply (Hno (a :: l1) l2).
Qed.

Lemma lstrip_rounds_id rounds spaces s :
  without_leading_space spaces s = None → lstrip_rounds rounds spaces s = s.
Proof. intros Hs. destruct rounds; cbn [lstrip_rounds]; [done|]. by rewrite Hs. Qed.

Lemma py_strip_id s :
  (∀ w, w ∈ py_whitespace → ¬ w `prefix_of` s ∧ ¬ w `suffix_of` s) →
  py_strip s = s.
Proof.
  intros Hs. unfold py_strip.
  rewrite (lstrip_rounds_id _ py_whitespace s).
  - rewrite lstrip_rounds_id; [apply reverse_involutive|].
    apply without_leading_space_None.
    intros w' (w & -> & Hw)%list_elem_of_fmap Hpre.
    apply (proj2 (Hs w Hw)). by apply suffix_prefix_reverse.
  - apply without_leading_space_None. intros w Hw. by apply Hs.
Qed.

Lemma bytes_of_text_of l :
  Forall (λ b, b < 256)%N l → bytes_of (text_of l) = l.
Proof.
  intros Hl. unfold bytes_of, text_of.
  rewrite String.list_ascii_of_string_of_list_ascii, <- list_fmap_compose.
  induction Hl as [|b l Hb _ IH]; [done|]. cbn [fmap list_fmap].
  rewrite IH. f_equal. cbn. by apply N_ascii_embedding.
Qed.

Lemma text_of_bytes_of s : text_of (bytes_of s) = s.
Proof.
  unfold bytes_of, text_of. rewrite <- list_fmap_compose.
  rewrite <- (String.string_of_list_ascii_of_string s) at 2. f_equal.
  induction (String.list_ascii_of_string s) as [|a l IH]; [done|].
  cbn [fmap list_fmap]. rewrite IH. f_equal. cbn. apply ascii_N_embedding.
Qed.

Lemma bytes_of_bounded s : Forall (λ b, b < 256)%N (bytes_of s).
Proof.
  unfold bytes_of. apply Forall_fmap, Forall_forall. intros a _.
  apply N_ascii_bounded.
Qed.

(** X19. A sanitised value, read as bytes, neither starts nor ends with a
    white-space character, holds no U+00A0, and is a piece of the value in
    which every U+00A0 was replaced by a space. Sanitising is idempotent,
    and a value that already has these properties is returned unchanged. *)
Theorem sanitized_value_is_trimmed :
  ∀ value,
    let out := bytes_of (_sanitize_value value) in
    (∀ w, w ∈ py_whitespace → ¬ w `prefix_of` out ∧ ¬ w `suffix_of` out)
    ∧ (∀ l1 l2, out ≠ l1 ++ [194; 160]%N ++ l2)
    ∧ (∃ before after,
         replace_nbsp (bytes_of value) = before ++ out ++ after)
    ∧ _sanitize_value (_sanitize_value value) = _sanitize_value value
    ∧ ((∀ w, w ∈ py_whitespace →
          ¬ w `prefix_of` bytes_of value ∧ ¬ w `suffix_of` bytes_of value) →
       (∀ l1 l2, bytes_of value ≠ l1 ++ [194; 160]%N ++ l2) →
       _sanitize_value value = value).
Proof.
  intros value out.
  set (replaced := replace_nbsp (bytes_of value)).
  destruct (py_strip_infix replaced) as (before & after & Hpiece).
  assert (Hbytes : Forall (λ b, b < 256)%N (py_strip replaced)).
  { pose proof (replace_nbsp_bytes _ (bytes_of_bounded value)) as Hall.
    fold replaced in Hall. rewrite Hpiece in Hall.
    apply Forall_app in Hall as [_ Hall]. by apply Forall_app in Hall as [? _]. }
  assert (Hout : out = py_strip replaced).
  { subst out. unfold _sanitize_value. by apply bytes_of_text_of. }
  assert (Hclean : no_nbsp (py_strip replaced)).
  { pose proof (replace_nbsp_no_nbsp (bytes_of value)) as Hno.
    fold replaced in Hno. rewrite Hpiece in Hno.
    by apply no_nbsp_app_r, no_nbsp_app_l in Hno. }
  assert (Htrim : ∀ w, w ∈ py_whitespace →
            ¬ w `prefix_of` py_strip replaced ∧ ¬ w `suffix_of` py_strip replaced)
    by (intros w Hw; by apply py_strip_no_surrounding_space).
  rewrite Hout. split; [done|]. split; [by apply no_nbsp_spec|].
  split; [by exists before, after|]. split.
  - unfold _sanitize_value at 1. fold out. rewrite Hout.
    rewrite (replace_nbsp_id _ Hclean), (py_strip_id _ Htrim).
    by unfold _sanitize_value.
  - intros Htrimmed Hnone. unfold _sanitize_value.
    rewrite (replace_nbsp_id (bytes_of value)) by (by apply no_nbsp_spec).
    rewrite (py_strip_id _ Htrimmed). apply text_of_bytes_of.
Qed.
